(** * CareerCompass: resume upload, skill matching, scoring and chatbot

    A shallow embedding of [app.py].  Python values are modelled as follows.

    - [str] is [string]; a character stands for the code point of the same
      number, so the model ranges over the texts whose code points lie in
      U+0000..U+00FF.  [str.lower], [str.strip] and [str.split] follow
      Python on that whole range.  [str.title] and [str.capitalize] follow
      Python except on U+00B5, U+00DF and U+00FF, whose title-case forms lie
      outside the range and which the model leaves unchanged; the program
      applies them to the ASCII skill vocabulary only.
    - [dict] is [gmap], [set] is [gset]; the order in which a Python set is
      iterated is not specified, and [elements] stands for it.
    - [float] is the IEEE 754 binary64 type [float] of the kernel.
    - A raised exception is the [Raise] case of [outcome].
    - The libraries the program calls (the UTF-8 decoder, pypdf, python-docx,
      the HTTP client) are Section variables.  Of the spaCy pipeline the
      program uses [doc.text] only: [nlp] refuses a text of more than
      [nlp.max_length] characters with [ValueError], and the [doc.text] of
      any other text is the text itself. *)

From Stdlib Require Import ZArith NArith Ascii String Floats.
From stdpp Require Import base option list gmap strings sets.

Set Default Proof Using "Type".
Local Open Scope string_scope.

(** ** Python strings *)

Module Str.

Definition code (c : ascii) : N := N_of_ascii c.

Definition between (lo hi : N) (c : ascii) : bool :=
  ((lo <=? code c) && (code c <=? hi))%N.

(** Characters with a lower-case form: A-Z and U+00C0..U+00DE without the
    multiplication sign U+00D7. *)
Definition is_upper (c : ascii) : bool :=
  between 65 90 c || (between 192 222 c && negb (code c =? 215)%N).

(** Characters with an upper-case form inside the range: a-z and
    U+00E0..U+00FE without the division sign U+00F7. *)
Definition is_lower (c : ascii) : bool :=
  between 97 122 c || (between 224 254 c && negb (code c =? 247)%N).

(** The Unicode property Cased on the range. *)
Definition is_cased (c : ascii) : bool :=
  is_upper c || is_lower c
  || (code c =? 170)%N || (code c =? 181)%N || (code c =? 186)%N
  || (code c =? 223)%N || (code c =? 255)%N.

(** [str.isspace] for one character. *)
Definition is_space (c : ascii) : bool :=
  between 9 13 c || between 28 32 c || (code c =? 133)%N || (code c =? 160)%N.

Definition lower_char (c : ascii) : ascii :=
  if is_upper c then ascii_of_N (code c + 32) else c.

Definition title_char (c : ascii) : ascii :=
  if is_lower c then ascii_of_N (code c - 32) else c.

(** [s.lower()] *)
Fixpoint lower (s : string) : string :=
  match s with
  | EmptyString => EmptyString
  | String c s' => String (lower_char c) (lower s')
  end.

(** [s.title()]: a character that follows a cased character is lowered, any
    other character is title-cased. *)
Fixpoint title_from (previous_is_cased : bool) (s : string) : string :=
  match s with
  | EmptyString => EmptyString
  | String c s' =>
      String (if previous_is_cased then lower_char c else title_char c)
             (title_from (is_cased c) s')
  end.

Definition title (s : string) : string := title_from false s.

(** [s.capitalize()]: the first character title-cased, the rest lowered. *)
Definition capitalize (s : string) : string :=
  match s with
  | EmptyString => EmptyString
  | String c s' => String (title_char c) (lower s')
  end.

(** [s.startswith(p)] *)
Fixpoint startswith (p s : string) : bool :=
  match p, s with
  | EmptyString, _ => true
  | String a p', String b s' => if ascii_dec a b then startswith p' s' else false
  | String _ _, EmptyString => false
  end.

(** [sub in s] *)
Fixpoint contains (sub s : string) : bool :=
  startswith sub s ||
  match s with
  | EmptyString => false
  | String _ s' => contains sub s'
  end.

(** [c in s] for a single character. *)
Fixpoint has_char (c : ascii) (s : string) : bool :=
  match s with
  | EmptyString => false
  | String a s' => if ascii_dec a c then true else has_char c s'
  end.

(** [s.lstrip()], [s.rstrip()], [s.strip()] *)
Fixpoint lstrip (s : string) : string :=
  match s with
  | EmptyString => EmptyString
  | String c s' => if is_space c then lstrip s' else s
  end.

Fixpoint rstrip (s : string) : string :=
  match s with
  | EmptyString => EmptyString
  | String c s' =>
      match rstrip s' with
      | EmptyString => if is_space c then EmptyString else String c EmptyString
      | r => String c r
      end
  end.

Definition strip (s : string) : string := rstrip (lstrip s).

(** [s.split()]: the maximal runs of characters that are not white space.
    [word] is the run being read, in reverse. *)
Fixpoint split_from (word : list ascii) (s : string) : list string :=
  let flush rest :=
    match word with
    | [] => rest
    | _ => string_of_list_ascii (rev word) :: rest
    end in
  match s with
  | EmptyString => flush []
  | String c s' =>
      if is_space c then flush (split_from [] s') else split_from (c :: word) s'
  end.

Definition split (s : string) : list string := split_from [] s.

(** [sep.join(parts)] *)
Fixpoint join (sep : string) (parts : list string) : string :=
  match parts with
  | [] => EmptyString
  | [p] => p
  | p :: ps => p ++ sep ++ join sep ps
  end.

(** [s.rsplit('.', 1)]: the text before the last dot and the text after it,
    or [s] alone when it has no dot. *)
Fixpoint rsplit_dot (s : string) : list string :=
  match s with
  | EmptyString => [EmptyString]
  | String c s' =>
      match rsplit_dot s' with
      | [before; after] => [String c before; after]
      | _ =>
          if ascii_dec c "." then [EmptyString; s'] else [String c s']
      end
  end.

(** [s[:n]] *)
Fixpoint take (n : nat) (s : string) : string :=
  match n, s with
  | S n', String c s' => String c (take n' s')
  | _, _ => EmptyString
  end.

(** Truth value of a string: [bool(s)]. *)
Definition truthy (s : string) : bool :=
  match s with EmptyString => false | _ => true end.

(** [sub in s], as a relation. *)
Definition substring_of (sub s : string) : Prop :=
  ∃ pre post : string, s = pre ++ sub ++ post.

End Str.

(** ** Exceptions *)

Inductive exn : Type :=
| IndexError
| KeyError (key : string)
| AttributeError
| TypeError
| ValueError (msg : string)
| RequestException (msg : string).

Inductive outcome (A : Type) : Type :=
| Ok (a : A)
| Raise (e : exn).

Arguments Ok {A} a.
Arguments Raise {A} e.

#[export] Instance outcome_ret : MRet outcome := λ A a, Ok a.

#[export] Instance outcome_bind : MBind outcome := λ A B f m,
  match m with
  | Ok a => f a
  | Raise e => Raise e
  end.

#[export] Instance outcome_fmap : FMap outcome := λ A B f m,
  match m with
  | Ok a => Ok (f a)
  | Raise e => Raise e
  end.

(** [try: body except Exception as e: handler(e)] *)
Definition try_except {A : Type} (body : outcome A) (handler : exn → outcome A) : outcome A :=
  match body with
  | Ok a => Ok a
  | Raise e => handler e
  end.

(** [l[i]] on a list *)
Definition getitem {A : Type} (l : list A) (i : nat) : outcome A :=
  match l !! i with
  | Some x => Ok x
  | None => Raise IndexError
  end.

(** ** Static data *)

Definition ALLOWED_EXTENSIONS : gset string := {[ "txt"; "pdf"; "docx" ]}.

Definition JOB_ROLE_SKILLS : gmap string (list string) :=
  list_to_map [
    ("Software Engineer", [
        "Python"; "Java"; "C++"; "JavaScript"; "SQL"; "Data Structures";
        "Algorithms"; "Object-Oriented Programming"; "Web Development";
        "Cloud Computing"; "Version Control (Git)"; "Problem Solving";
        "Communication"; "Teamwork"; "Agile Methodologies"; "REST API";
        "Docker"; "Kubernetes"; "Microservices"; "Unit Testing"; "CI/CD"
    ]);
    ("Data Scientist", [
        "Python"; "R"; "SQL"; "Machine Learning"; "Deep Learning";
        "Statistical Modeling"; "Data Visualization"; "Data Wrangling";
        "Big Data Technologies"; "Cloud Computing"; "Communication";
        "Problem Solving"; "Critical Thinking"; "Business Acumen";
        "Pandas"; "NumPy"; "Scikit-learn"; "TensorFlow"; "PyTorch"; "Spark"
    ]);
    ("Business Analyst", [
        "Requirements Gathering"; "Data Analysis"; "SQL"; "Process Modeling";
        "Stakeholder Management"; "Communication"; "Problem Solving";
        "Project Management"; "Microsoft Excel"; "Presentation Skills";
        "Critical Thinking"; "Business Process Improvement"; "UML"; "Agile";
        "User Stories"; "Jira"; "Confluence"
    ]);
    ("Project Manager", [
        "Project Planning"; "Risk Management"; "Budget Management";
        "Stakeholder Management"; "Team Leadership"; "Communication";
        "Negotiation"; "Problem Solving"; "Agile Methodologies";
        "Scrum"; "Time Management"; "Decision Making"; "Gantt Charts";
        "Resource Allocation"; "Conflict Resolution"
    ])
  ].

(** The set comprehension over [JOB_ROLE_SKILLS.values()], then [update]. *)
Definition ALL_POSSIBLE_SKILLS_LOWER : gset string :=
  list_to_set (Str.lower <$> mjoin ((map_to_list JOB_ROLE_SKILLS).*2))
  ∪ {[ "leadership"; "adaptability"; "creativity"; "time management";
       "analytical skills"; "attention to detail"; "customer service";
       "negotiation"; "public speaking" ]}.

Definition DEFAULT_SKILLS : list string :=
  ["Communication"; "Problem Solving"; "Teamwork"; "Adaptability"].

(** ** Skill matching *)

(** [JOB_ROLE_SKILLS.get(job_role, [...])] *)
Definition get_target_skills_static (job_role : string) : list string :=
  default DEFAULT_SKILLS (JOB_ROLE_SKILLS !! job_role).

(** The display form added to [extracted]:
    [skill.title() if len(skill.split()) == 1
     else ' '.join(word.capitalize() for word in skill.split())] *)
Definition display (skill : string) : string :=
  if decide (length (Str.split skill) = 1%nat)
  then Str.title skill
  else Str.join " " (Str.capitalize <$> Str.split skill).

(** One turn of the loop over [ALL_POSSIBLE_SKILLS_LOWER]. *)
Definition add_if_present (doc_text skill : string) (extracted : gset string) : gset string :=
  if Str.contains skill doc_text then {[ display skill ]} ∪ extracted else extracted.

(** [nlp.max_length], which the program leaves at the default of spaCy. *)
Definition NLP_MAX_LENGTH : Z := 1000000.

(** The message of spaCy's error E088, shortened to its code. *)
Definition E088 : string := "[E088]".

(** [nlp(text).text]: [Language.__call__] raises [ValueError] when
    [len(text) > nlp.max_length]; the text of the document is otherwise the
    text that was given. *)
Definition nlp (text : string) : outcome string :=
  if (NLP_MAX_LENGTH <? Z.of_nat (String.length text))%Z
  then Raise (ValueError E088)
  else Ok text.

(** The loop over [ALL_POSSIBLE_SKILLS_LOWER] and [list(extracted)]. *)
Definition skills_in (doc_text : string) : list string :=
  let extracted := set_fold (add_if_present doc_text) ∅ ALL_POSSIBLE_SKILLS_LOWER in
  elements extracted.

Definition extract_skills_nlp (resume_text : string) : outcome (list string) :=
  doc_text ← nlp (Str.lower resume_text);
  mret (skills_in doc_text).

(** [missing_skills] of [generate_recommendation_non_ai]. *)
Definition missing_skills (extracted_skills target_job_skills : list string) : list string :=
  filter (λ skill, Str.lower skill ∉ Str.lower <$> extracted_skills) target_job_skills.

(** ** Floating point *)

(** [float(z)] for an integer; exact for [0 <= z < 2^53]. *)
Definition int_to_float (z : Z) : float := PrimFloat.of_uint63 (Uint63.of_Z z).

(** [a / b] on integers (true division). *)
Definition true_div (a b : Z) : float := (int_to_float a / int_to_float b)%float.

(** The integer nearest to [n / d], ties to the even one. *)
Definition round_half_even (n d : Z) : Z :=
  let q := (n / d)%Z in
  let r := (n mod d)%Z in
  match (2 * r ?= d)%Z with
  | Lt => q
  | Gt => (q + 1)%Z
  | Eq => if Z.even q then q else (q + 1)%Z
  end.

(** [round(x, 2)].  CPython writes the exact value of [x] in decimal,
    correctly rounded to two places, and reads the digits back as the nearest
    float.  With [x = m * 2^e] the digits are those of the integer [k] nearest
    to [100 * m * 2^e]; [k / 100] is read back by one correctly rounded
    division, which is exact reading as long as [k < 2^53].  A float with
    [e >= 0] is an integer and is returned as it is, like the zeros,
    infinities and NaN. *)
Definition round2 (x : float) : float :=
  match Prim2SF x with
  | S754_finite s m e =>
      if (0 <=? e)%Z then x
      else
        let k := round_half_even (Z.pos m * 100) (2 ^ (- e)) in
        let r := (int_to_float k / 100)%float in
        if s then (- r)%float else r
  | _ => x
  end.

(** ** The upload handler *)

Inductive http_method : Type := GET | POST.

Record FileStorage : Type := {
  filename : string;
  stream : list Byte.byte
}.

Record Request : Type := {
  session_user : option string;
  method : http_method;
  form_target_job_role : option string;
  files_resume : option FileStorage
}.

(** What is written to the session by a successful upload. *)
Record MatchReport : Type := {
  chart_labels : list string;
  chart_values : list Z;
  extracted_skills : list string;
  target_job_skills : list string;
  resume_score : float;
  selected_job_role : string
}.

Inductive location : Type :=
| url_for (endpoint : string)
| request_url.

Inductive view : Type :=
| redirect (to : location)
| render_template (name : string).

Record Response : Type := {
  flashed : list (string * string);
  stored : option MatchReport;
  body : view
}.

(** A response that flashes one message and stores nothing. *)
Definition flash_and (message category : string) (v : view) : Response :=
  {| flashed := [(message, category)]; stored := None; body := v |}.

(** [allowed_file]: ['.' in filename and
    filename.rsplit('.', 1)[1].lower() in ALLOWED_EXTENSIONS] *)
Definition allowed_file (filename : string) : outcome bool :=
  if Str.has_char "." filename then
    suffix ← getitem (Str.rsplit_dot filename) 1;
    mret (bool_decide (Str.lower suffix ∈ ALLOWED_EXTENSIONS))
  else mret false.

(** One turn of the loop over [target_job_skills] in [upload]. *)
Definition score_step (extracted_skills_lower : gset string)
    (acc : Z * list string * list Z) (skill : string) : Z * list string * list Z :=
  let '(matched_skills_count, labels, values) := acc in
  if bool_decide (Str.lower skill ∈ extracted_skills_lower)
  then ((matched_skills_count + 1)%Z, (labels ++ [skill])%list, (values ++ [1%Z])%list)
  else (matched_skills_count, (labels ++ [skill])%list, (values ++ [0%Z])%list).

Definition score_loop (extracted_skills_lower : gset string) (target : list string)
    : Z * list string * list Z :=
  foldl (score_step extracted_skills_lower) (0%Z, [], []) target.

(** [upload] from the point where the target and the extracted skills are
    known: the two guards, the loop, the score and the session. *)
Definition score_resume (target_job_role : string)
    (target_skills extracted : list string) : Response :=
  match target_skills with
  | [] =>
      flash_and "Could not determine target job skills. Please try again." "danger"
                (redirect request_url)
  | _ :: _ =>
      let no_skills :=
        match extracted with
        | [] => [("Could not extract skills from resume using NLP/keyword matching. Please ensure your resume contains clear skill mentions.", "danger")]
        | _ :: _ => []
        end in
      let extracted_skills_lower : gset string := list_to_set (Str.lower <$> extracted) in
      let '(matched_skills_count, labels, values) :=
        score_loop extracted_skills_lower target_skills in
      let score :=
        round2 (true_div matched_skills_count (Z.of_nat (length target_skills)) * 100)%float in
      {| flashed := (no_skills ++ [("Resume analyzed and score calculated!", "success")])%list;
         stored := Some {| chart_labels := labels;
                           chart_values := values;
                           extracted_skills := extracted;
                           target_job_skills := target_skills;
                           resume_score := score;
                           selected_job_role := target_job_role |};
         body := redirect (url_for "charts") |}
  end.

(** [upload] from the point where the resume text is known and is not
    blank; the call of [extract_skills_nlp] is in no [try], so what it raises
    leaves the handler. *)
Definition analyse (target_job_role resume_text : string) : outcome Response :=
  let target_skills := get_target_skills_static target_job_role in
  extracted ← extract_skills_nlp resume_text;
  mret (score_resume target_job_role target_skills extracted).

Section Upload.

(** [bytes.decode('utf-8', errors='ignore')] *)
Variable decode_utf8_ignore : list Byte.byte → string.

(** [page.extract_text()] for each page of [pypdf.PdfReader(...)], in page
    order; [None] when the reader or a page raises. *)
Variable pdf_page_texts : list Byte.byte → option (list (option string)).

(** [paragraph.text] for each paragraph of [Document(...)], in document
    order; [None] when python-docx raises. *)
Variable docx_paragraph_texts : list Byte.byte → option (list string).

(** The loop [text_content += page.extract_text() or ""]. *)
Definition pdf_text (pages : list (option string)) : string :=
  foldl (λ text_content page, text_content ++ default "" page) "" pages.

(** The loop [text_content += paragraph.text + "\n"]. *)
Definition docx_text (paragraphs : list string) : string :=
  foldl (λ text_content paragraph, text_content ++ paragraph ++ "
") "" paragraphs.

(** [extract_text_from_file]: the text, or [None] for a file that could not
    be parsed. *)
Definition extract_text_from_file (file : FileStorage) : outcome (option string) :=
  suffix ← getitem (Str.rsplit_dot (filename file)) 1;
  let file_extension := Str.lower suffix in
  let text_content := "" in
  if decide (file_extension = "txt") then
    mret (Some (decode_utf8_ignore (stream file)))
  else if decide (file_extension = "pdf") then
    match pdf_page_texts (stream file) with
    | Some pages => mret (Some (pdf_text pages))
    | None => mret None
    end
  else if decide (file_extension = "docx") then
    match docx_paragraph_texts (stream file) with
    | Some paragraphs => mret (Some (docx_text paragraphs))
    | None => mret None
    end
  else mret (Some text_content).

Definition COULD_NOT_EXTRACT : string :=
  "Could not extract text from the uploaded file. Please ensure it is a valid TXT, PDF, or DOCX.".

Definition EXTRACTED_EMPTY : string :=
  "Extracted resume text is empty. Please ensure your resume contains readable text.".

Definition INVALID_FILE_TYPE : string :=
  "Invalid file type. Allowed types: TXT, PDF, DOCX".

(** [upload], from the extension check on. *)
Definition upload_file (target_job_role : string) (file : FileStorage) : outcome Response :=
  allowed ← (if Str.truthy (filename file) then allowed_file (filename file) else mret false);
  if allowed : bool then
    resume_text ← extract_text_from_file file;
    match resume_text with
    | None | Some EmptyString =>
        mret (flash_and COULD_NOT_EXTRACT "danger" (redirect request_url))
    | Some resume_text =>
        if negb (Str.truthy (Str.strip resume_text)) then
          mret (flash_and EXTRACTED_EMPTY "danger" (redirect request_url))
        else analyse target_job_role resume_text
    end
  else mret (flash_and INVALID_FILE_TYPE "danger" (render_template "upload.html")).

Definition upload (request : Request) : outcome Response :=
  match session_user request with
  | None =>
      mret (flash_and "Please log in to upload a resume." "warning"
                      (redirect (url_for "login")))
  | Some _ =>
      match method request with
      | POST =>
          match form_target_job_role request with
          | None | Some EmptyString =>
              mret (flash_and "Please select a target job role." "danger"
                              (redirect request_url))
          | Some target_job_role =>
              match files_resume request with
              | None => mret (flash_and "No file part" "danger" (redirect request_url))
              | Some file =>
                  if decide (filename file = "") then
                    mret (flash_and "No selected file" "danger" (redirect request_url))
                  else upload_file target_job_role file
              end
          end
      | GET => mret {| flashed := []; stored := None; body := render_template "upload.html" |}
      end
  end.

End Upload.

(** ** JSON values, as [response.json()] returns them *)

Module Json.

(** [members] lists the entries of a Python dict, one per key. *)
#[warnings="-register-all"]
Inductive json : Type :=
| JNull
| JBool (b : bool)
| JInt (n : Z)
| JFloat (x : float)
| JStr (s : string)
| JArr (items : list json)
| JObj (members : list (string * json)).

(** [bool(v)] *)
Definition truthy (v : json) : bool :=
  match v with
  | JNull => false
  | JBool b => b
  | JInt n => negb (n =? 0)%Z
  | JFloat x => negb (x =? 0)%float
  | JStr s => Str.truthy s
  | JArr items => match items with [] => false | _ :: _ => true end
  | JObj members => match members with [] => false | _ :: _ => true end
  end.

Fixpoint lookup_member (key : string) (members : list (string * json)) : option json :=
  match members with
  | [] => None
  | (k, v) :: rest => if decide (k = key) then Some v else lookup_member key rest
  end.

(** [v.get(key)]: only a dict has the method. *)
Definition get (v : json) (key : string) : outcome json :=
  match v with
  | JObj members => Ok (default JNull (lookup_member key members))
  | _ => Raise AttributeError
  end.

(** [v[key]] for a string key. *)
Definition item (v : json) (key : string) : outcome json :=
  match v with
  | JObj members =>
      match lookup_member key members with
      | Some x => Ok x
      | None => Raise (KeyError key)
      end
  | _ => Raise TypeError
  end.

(** [v[0]]: a dict read from JSON has string keys only. *)
Definition item0 (v : json) : outcome json :=
  match v with
  | JArr (x :: _) => Ok x
  | JArr [] => Raise IndexError
  | JStr (String c _) => Ok (JStr (String c EmptyString))
  | JStr EmptyString => Raise IndexError
  | JObj _ => Raise (KeyError "0")
  | _ => Raise TypeError
  end.

(** [v[:100]]: strings and lists can be sliced; a dict raises [TypeError]
    ([KeyError] from Python 3.12 on). *)
Definition slice100 (v : json) : outcome json :=
  match v with
  | JStr s => Ok (JStr (Str.take 100 s))
  | JArr items => Ok (JArr (firstn 100 items))
  | _ => Raise TypeError
  end.

(** [a and b]: [b] is evaluated only when [a] is true. *)
Definition and_then (a b : outcome json) : outcome json :=
  v ← a; if truthy v then b else mret v.

End Json.

Import Json.

(** ** The chatbot *)

Record ChatRequest : Type := {
  chat_session_user : option string;
  chat_method : http_method;
  form_query : option string
}.

Record ChatResponse : Type := {
  chat_flashed : list (string * string);
  chat_body : view;
  response : option json;
  user_query : string
}.

Definition NOT_CONFIGURED : string :=
  "Sorry, the AI chatbot is not configured. Please ensure the API key is set.".

Definition BLOCKED : string :=
  "The AI response was blocked due to content policy. Please try a different query.".

Definition UNEXPECTED_FORMAT : string :=
  "Sorry, I couldn't generate a response. The AI returned an unexpected format.".

Definition TROUBLE_CONNECTING : string :=
  "Sorry, I'm having trouble connecting to the AI. Error: ".

Definition UNEXPECTED_ERROR : string :=
  "An unexpected error occurred with the AI. Error: ".

Definition NO_RESPONSE : string :=
  "Sorry, I couldn't generate a response at this time. There might be an issue with the AI service or content policy. Please try again later.".

Definition PROMPT_PREFIX : string :=
  "You are a helpful and encouraging career guidance AI. Your goal is to provide supportive and actionable advice based on the user's query. Respond to the following query: ".

Section Chat.

(** The API key read from the environment when the program starts. *)
Variable GEMINI_API_KEY : string.

(** [requests.post(api_url, ..., data=json.dumps(payload))], then
    [raise_for_status()] and [.json()]: the parsed body, or the exception that
    one of the three raised ([RequestException] for the transport and for an
    HTTP error status). *)
Variable requests_post : string → json → outcome json.

(** [str(e)], as the f-strings of the handlers format the exception. *)
Variable exn_str : exn → string.

(** [result['candidates'][0]] *)
Definition first_candidate (result : json) : outcome json :=
  candidates ← item result "candidates"; item0 candidates.

(** [result['candidates'][0]['content']] *)
Definition first_content (result : json) : outcome json :=
  candidate ← first_candidate result; item candidate "content".

(** The condition of the [if]:
    [result.get('candidates') and result['candidates'][0].get('content')
     and result['candidates'][0]['content'].get('parts')] *)
Definition has_parts (result : json) : outcome json :=
  and_then (get result "candidates")
    (and_then (candidate ← first_candidate result; get candidate "content")
              (content ← first_content result; get content "parts")).

(** [result['candidates'][0]['content']['parts'][0]['text']], returned after
    [generated_text[:100]] has been printed. *)
Definition generated_text (result : json) : outcome json :=
  content ← first_content result;
  parts ← item content "parts";
  part ← item0 parts;
  text ← item part "text";
  _ ← slice100 text;
  mret text.

(** The [else] branch. *)
Definition explain_failure (result : json) : outcome json :=
  blocked ←
    and_then (get result "promptFeedback")
             (feedback ← item result "promptFeedback";
              get feedback "blockReason");
  if truthy blocked then mret (JStr BLOCKED) else mret (JStr UNEXPECTED_FORMAT).

(** The body of the [try] block once the response is parsed. *)
Definition read_response (result : json) : outcome json :=
  filled ← has_parts result;
  if truthy filled then generated_text result else explain_failure result.

(** [payload], with [chat_history] holding the prompt as its one entry. *)
Definition chat_payload (prompt : string) : json :=
  let chat_history :=
    [JObj [("role", JStr "user"); ("parts", JArr [JObj [("text", JStr prompt)]])]] in
  JObj [("contents", JArr chat_history)].

Definition api_url : string :=
  "https://generativelanguage.googleapis.com/v1beta/models/gemini-2.0-flash:generateContent?key="
  ++ GEMINI_API_KEY.

Definition call_gemini_api_for_chatbot (prompt : string) : outcome json :=
  if negb (Str.truthy GEMINI_API_KEY) then mret (JStr NOT_CONFIGURED)
  else
    let payload := chat_payload prompt in
    try_except
      (result ← requests_post api_url payload; read_response result)
      (λ e,
        match e with
        | RequestException _ => mret (JStr (TROUBLE_CONNECTING ++ exn_str e))
        | _ => mret (JStr (UNEXPECTED_ERROR ++ exn_str e))
        end).

(** [chatbot]: [request.form['query']] raises when the field is absent. *)
Definition chatbot (request : ChatRequest) : outcome ChatResponse :=
  match chat_session_user request with
  | None =>
      mret {| chat_flashed := [("Please log in to use the chatbot.", "warning")];
              chat_body := redirect (url_for "login");
              response := None; user_query := "" |}
  | Some _ =>
      match chat_method request with
      | POST =>
          query ← (match form_query request with
                   | Some q => mret q
                   | None => Raise (KeyError "query")
                   end);
          if Str.truthy query then
            let full_prompt := PROMPT_PREFIX ++ query in
            response_text ← call_gemini_api_for_chatbot full_prompt;
            if negb (truthy response_text) then
              mret {| chat_flashed := [("Error getting response from AI chatbot.", "danger")];
                      chat_body := render_template "chatbot.html";
                      response := Some (JStr NO_RESPONSE); user_query := query |}
            else
              mret {| chat_flashed := [];
                      chat_body := render_template "chatbot.html";
                      response := Some response_text; user_query := query |}
          else
            mret {| chat_flashed := [("Please enter a query.", "danger")];
                    chat_body := render_template "chatbot.html";
                    response := None; user_query := query |}
      | GET =>
          mret {| chat_flashed := []; chat_body := render_template "chatbot.html";
                  response := None; user_query := "" |}
      end
  end.

End Chat.

(** ** The recommendation text *)

Definition LF : string := "
".

(** The canned suggestion for one missing skill; the tests on the skill name
    are case-sensitive substring tests. *)
Definition suggestion_for (skill : string) : string :=
  let suggestion := "* **" ++ skill ++ ":** " in
  if Str.contains "Python" skill || Str.contains "SQL" skill
     || Str.contains "Machine Learning" skill || Str.contains "Java" skill
     || Str.contains "JavaScript" skill
  then suggestion ++ "Consider online courses on Coursera, Udemy, or edX. Practice with coding challenges on LeetCode or HackerRank."
  else if Str.contains "Communication" skill || Str.contains "Problem Solving" skill
          || Str.contains "Leadership" skill || Str.contains "Management" skill
  then suggestion ++ "Join Toastmasters, participate in group projects, or take online courses on soft skills. Look for relevant certifications."
  else suggestion ++ "Search for online tutorials, workshops, or practical projects related to this skill.".

(** The roles suggested beside the selected one in the well-aligned branch. *)
Definition related_roles (selected_job_role : string) : string :=
  if decide (selected_job_role = "Software Engineer") then
    "* Consider roles like **Full-Stack Developer** or **Backend Engineer**." ++ LF
  else if decide (selected_job_role = "Data Scientist") then
    "* Explore positions such as **Machine Learning Engineer** or **Data Analyst**." ++ LF
  else if decide (selected_job_role = "Business Analyst") then
    "* Look into roles like **Systems Analyst** or **Product Owner**." ++ LF
  else if decide (selected_job_role = "Project Manager") then
    "* Roles like **Program Manager** or **Scrum Master** might also be a good fit." ++ LF
  else "".

(** The test [len(missing_skills) < 3 and len(extracted_skills) > 5]. *)
Definition well_aligned (extracted missing : list string) : bool :=
  (length missing <? 3)%nat && (5 <? length extracted)%nat.

Definition GREAT_JOB : string :=
  "* Great job! You possess many of the target skills. Continue to refine your expertise in these areas.".

Definition generate_recommendation_non_ai
    (extracted target : list string) (selected_job_role : string) : string :=
  let missing := missing_skills extracted target in
  let recommendation :=
    "## Personalized Career Recommendations for " ++ selected_job_role ++ LF ++ LF in
  let recommendation :=
    recommendation
    ++ "Based on your current skills and the target role, here are some recommendations:"
    ++ LF ++ LF in
  let recommendation := recommendation ++ "### 1. Specific Job Roles" ++ LF in
  let recommendation :=
    if well_aligned extracted missing then
      let recommendation :=
        recommendation ++ "* You seem well-aligned for a **" ++ selected_job_role
        ++ "** role. Focus on highlighting your strengths in your applications." ++ LF in
      recommendation ++ related_roles selected_job_role
    else
      let recommendation :=
        recommendation
        ++ "* Given your current skill set, you might also find opportunities in roles that require a broader range of skills, or roles that align with your strongest extracted skills."
        ++ LF in
      recommendation ++ "* Consider exploring roles related to: "
      ++ match extracted with
         | [] => "general tech/business roles"
         | _ :: _ => Str.join ", " (firstn 3 extracted)
         end
      ++ "." ++ LF in
  let recommendation := recommendation ++ LF in
  let recommendation := recommendation ++ "### 2. Skill Improvement Suggestions" ++ LF in
  let recommendation :=
    match missing with
    | _ :: _ =>
        let recommendation :=
          recommendation
          ++ "To bridge the gaps for your target role, focus on these skills:" ++ LF in
        foldl (λ recommendation skill, recommendation ++ suggestion_for skill ++ LF)
              recommendation missing
    | [] => recommendation ++ GREAT_JOB ++ LF
    end in
  let recommendation := recommendation ++ LF in
  let recommendation := recommendation ++ "### 3. General Career Advice" ++ LF in
  let recommendation :=
    recommendation
    ++ "* **Build a Strong Portfolio:** Showcase your projects and practical experience, especially for technical roles."
    ++ LF in
  let recommendation :=
    recommendation
    ++ "* **Networking:** Connect with professionals in your target industry on LinkedIn and attend industry events."
    ++ LF in
  let recommendation :=
    recommendation
    ++ "* **Continuous Learning:** The job market evolves rapidly. Always be open to learning new technologies and methodologies."
    ++ LF in
  let recommendation :=
    recommendation
    ++ "* **Tailor Your Resume:** Always customize your resume and cover letter for each specific job application."
    ++ LF in
  recommendation ++ LF.

(** ** Users and the session *)

(** The in-memory user storage when the program starts. *)
Definition INITIAL_USERS : gmap string string :=
  {[ "testuser" := "password123"; "john.doe" := "securepass" ]}.

Module Session.

(** The keys that the handlers read and write in the session. *)
Record t : Type := {
  user : option string;
  chart_data : option (list string * list Z);
  extracted_skills : option (list string);
  target_job_skills : option (list string);
  resume_score : option float;
  selected_job_role : option string
}.

Definition empty : t :=
  {| user := None; chart_data := None; extracted_skills := None;
     target_job_skills := None; resume_score := None; selected_job_role := None |}.

(** [session['user'] = username] *)
Definition set_user (username : string) (s : t) : t :=
  {| user := Some username; chart_data := chart_data s;
     extracted_skills := extracted_skills s;
     target_job_skills := target_job_skills s;
     resume_score := resume_score s; selected_job_role := selected_job_role s |}.

(** [session.pop('user', None)] *)
Definition pop_user (s : t) : t :=
  {| user := None; chart_data := chart_data s;
     extracted_skills := extracted_skills s;
     target_job_skills := target_job_skills s;
     resume_score := resume_score s; selected_job_role := selected_job_role s |}.

End Session.

(** The five assignments at the end of a successful [upload]. *)
Definition store_report (report : MatchReport) (s : Session.t) : Session.t :=
  {| Session.user := Session.user s;
     Session.chart_data := Some (chart_labels report, chart_values report);
     Session.extracted_skills := Some (extracted_skills report);
     Session.target_job_skills := Some (target_job_skills report);
     Session.resume_score := Some (resume_score report);
     Session.selected_job_role := Some (selected_job_role report) |}.

Record Page : Type := {
  page_flashed : list (string * string);
  page_body : view
}.

Record Credentials : Type := {
  form_username : option string;
  form_password : option string
}.

(** [request.form[key]]: raises when the field is absent. *)
Definition form_field (key : string) (value : option string) : outcome string :=
  match value with
  | Some v => Ok v
  | None => Raise (KeyError key)
  end.

(** [login]: the session afterwards and the page. *)
Definition login (users : gmap string string) (session : Session.t)
    (method : http_method) (form : Credentials) : outcome (Session.t * Page) :=
  match method with
  | POST =>
      username ← form_field "username" (form_username form);
      password ← form_field "password" (form_password form);
      if decide (users !! username = Some password) then
        mret (Session.set_user username session,
              {| page_flashed := [("Logged in successfully!", "success")];
                 page_body := redirect (url_for "dashboard") |})
      else
        mret (session,
              {| page_flashed := [("Invalid username or password. Please try again.", "danger")];
                 page_body := render_template "login.html" |})
  | GET => mret (session, {| page_flashed := []; page_body := render_template "login.html" |})
  end.

(** [register]: the user storage afterwards and the page. *)
Definition register (users : gmap string string)
    (method : http_method) (form : Credentials) : outcome (gmap string string * Page) :=
  match method with
  | POST =>
      username ← form_field "username" (form_username form);
      password ← form_field "password" (form_password form);
      if decide (is_Some (users !! username)) then
        mret (users,
              {| page_flashed := [("Username already exists. Please choose a different one.", "warning")];
                 page_body := render_template "register.html" |})
      else
        mret (<[username := password]> users,
              {| page_flashed := [("Registration successful! Please log in.", "success")];
                 page_body := redirect (url_for "login") |})
  | GET => mret (users, {| page_flashed := []; page_body := render_template "register.html" |})
  end.

Definition logout (session : Session.t) : Session.t * Page :=
  (Session.pop_user session,
   {| page_flashed := [("You have been logged out.", "info")];
      page_body := redirect (url_for "home") |}).

Definition dashboard (session : Session.t) : Page :=
  match Session.user session with
  | None =>
      {| page_flashed := [("Please log in to access the dashboard.", "warning")];
         page_body := redirect (url_for "login") |}
  | Some _ => {| page_flashed := []; page_body := render_template "dashboard.html" |}
  end.

(** ** Charts and recommendations from the session *)

(** [["#10B981" if val == 1 else "#EF4444" for val in chart_data['values']]] *)
Definition background_colors (values : list Z) : list string :=
  (λ val, if decide (val = 1%Z) then "#10B981" else "#EF4444") <$> values.

(** What [charts] hands to the template. *)
Record ChartsContext : Type := {
  ctx_chart_data : list string * list Z;
  ctx_chart_labels_json : string;
  ctx_chart_values_json : string;
  ctx_background_colors_json : string;
  ctx_resume_score : float;
  ctx_selected_job_role : string;
  ctx_extracted_skills : list string;
  ctx_target_job_skills : list string
}.

Section Charts.

(** [json.dumps] on a list of strings and on a list of integers. *)
Variable dumps_strings : list string → string.
Variable dumps_ints : list Z → string.

(** [charts]: the page, and the template context when the user is logged
    in.  The missing [resume_score] defaults to the integer 0. *)
Definition charts (session : Session.t) : Page * option ChartsContext :=
  match Session.user session with
  | None =>
      ({| page_flashed := [("Please log in to view charts.", "warning")];
          page_body := redirect (url_for "login") |}, None)
  | Some _ =>
      let chart_data := default ([], []) (Session.chart_data session) in
      let resume_score := default 0%float (Session.resume_score session) in
      let selected_job_role := default "N/A" (Session.selected_job_role session) in
      let extracted_skills := default [] (Session.extracted_skills session) in
      let target_job_skills := default [] (Session.target_job_skills session) in
      let background_colors := background_colors chart_data.2 in
      ({| page_flashed := []; page_body := render_template "charts.html" |},
       Some {| ctx_chart_data := chart_data;
               ctx_chart_labels_json := dumps_strings chart_data.1;
               ctx_chart_values_json := dumps_ints chart_data.2;
               ctx_background_colors_json := dumps_strings background_colors;
               ctx_resume_score := resume_score;
               ctx_selected_job_role := selected_job_role;
               ctx_extracted_skills := extracted_skills;
               ctx_target_job_skills := target_job_skills |})
  end.

End Charts.

(** [career_recommendation]: the page and the text given to the template. *)
Definition career_recommendation (session : Session.t) : Page * option string :=
  match Session.user session with
  | None =>
      ({| page_flashed := [("Please log in to get career recommendations.", "warning")];
          page_body := redirect (url_for "login") |}, None)
  | Some _ =>
      let extracted_skills := default [] (Session.extracted_skills session) in
      let target_job_skills := default [] (Session.target_job_skills session) in
      let selected_job_role := default "a job role" (Session.selected_job_role session) in
      ({| page_flashed := [];
          page_body := render_template "career_recommendation.html" |},
       Some (generate_recommendation_non_ai extracted_skills target_job_skills
                                            selected_job_role))
  end.

(** [resources] *)
Definition resources (session : Session.t) : Page :=
  match Session.user session with
  | None =>
      {| page_flashed := [("Please log in to view resources.", "warning")];
         page_body := redirect (url_for "login") |}
  | Some _ => {| page_flashed := []; page_body := render_template "resources.html" |}
  end.

(** ** The application as a whole *)

(** The requests that change the user storage or the session. *)
Inductive call : Type :=
| CallLogin (method : http_method) (form : Credentials)
| CallRegister (method : http_method) (form : Credentials)
| CallLogout
| CallUpload (method : http_method) (target_job_role : option string)
             (file : option FileStorage).

Section App.

Variable decode_utf8_ignore : list Byte.byte → string.
Variable pdf_page_texts : list Byte.byte → option (list (option string)).
Variable docx_paragraph_texts : list Byte.byte → option (list string).

(** [upload] with the session: the report of a successful upload is
    written to the session. *)
Definition upload_in (session : Session.t) (method : http_method)
    (target_job_role : option string) (file : option FileStorage)
    : outcome (Session.t * Response) :=
  response ← upload decode_utf8_ignore pdf_page_texts docx_paragraph_texts
             {| session_user := Session.user session; method := method;
                form_target_job_role := target_job_role; files_resume := file |};
  mret (match stored response with
        | Some report => store_report report session
        | None => session
        end, response).

(** One request; a handler that raises leaves the state as it was. *)
Definition step (state : gmap string string * Session.t) (c : call)
    : gmap string string * Session.t :=
  let '(users, session) := state in
  match c with
  | CallLogin method form =>
      match login users session method form with
      | Ok (session', _) => (users, session')
      | Raise _ => state
      end
  | CallRegister method form =>
      match register users method form with
      | Ok (users', _) => (users', session)
      | Raise _ => state
      end
  | CallLogout => (users, (logout session).1)
  | CallUpload method target_job_role file =>
      match upload_in session method target_job_role file with
      | Ok (session', _) => (users, session')
      | Raise _ => state
      end
  end.

(** The state after a sequence of requests of one client, from the start of
    the program. *)
Definition run (calls : list call) : gmap string string * Session.t :=
  foldl step (INITIAL_USERS, Session.empty) calls.

End App.

(** ** Sample collaborators *)

(** A decoder for ASCII input, on which it agrees with the UTF-8 decoder. *)
Definition decode_ascii (data : list Byte.byte) : string :=
  string_of_list_byte (filter (λ b, (Byte.to_N b <? 128)%N) data).

(** A PDF library and a DOCX library that reject every file. *)
Definition pdf_unreadable (data : list Byte.byte) : option (list (option string)) := None.

Definition docx_unreadable (data : list Byte.byte) : option (list string) := None.

(** A service that answers with one candidate whose text is [text]. *)
Definition answer_with (text : string) (api_url : string) (payload : json) : outcome json :=
  Ok (JObj [("candidates",
             JArr [JObj [("content", JObj [("parts", JArr [JObj [("text", JStr text)]])])]])]).

(** A service that reports a content-policy block. *)
Definition blocked_for_safety (api_url : string) (payload : json) : outcome json :=
  Ok (JObj [("promptFeedback", JObj [("blockReason", JStr "SAFETY")])]).



(** A rendering of exceptions as text. *)
Definition exn_message (e : exn) : string :=
  match e with
  | IndexError => "list index out of range"
  | KeyError key => key
  | AttributeError => "object has no attribute 'get'"
  | TypeError => "object is not subscriptable"
  | ValueError msg => msg
  | RequestException msg => msg
  end.

(** ** Notions used to state the properties *)

(** The text of the first part of the first candidate of a response, which
    is what the chat completion is meant to return. *)
Definition first_text (result : json) : option json :=
  match result with
  | JObj members =>
      match lookup_member "candidates" members with
      | Some (JArr (JObj candidate :: _)) =>
          match lookup_member "content" candidate with
          | Some (JObj content) =>
              match lookup_member "parts" content with
              | Some (JArr (JObj part :: _)) => lookup_member "text" part
              | _ => None
              end
          | _ => None
          end
      | _ => None
      end
  | _ => None
  end.

(** The message that the [except] clauses return for [e]. *)
Definition fallback_for (exn_str : exn → string) (e : exn) : string :=
  match e with
  | RequestException _ => TROUBLE_CONNECTING ++ exn_str e
  | _ => UNEXPECTED_ERROR ++ exn_str e
  end.

(** The indicator that the loop of [upload] appends for [skill]. *)
Definition indicator (extracted_skills_lower : gset string) (skill : string) : Z :=
  if bool_decide (Str.lower skill ∈ extracted_skills_lower) then 1%Z else 0%Z.

(** The indicator written as substring presence in the lowered text. *)
Definition present (resume_text skill : string) : Z :=
  if Str.contains (Str.lower skill) (Str.lower resume_text) then 1%Z else 0%Z.

(** The score for [matched] skills out of [total], as [upload] computes it. *)
Definition score_of (matched total : Z) : float :=
  round2 (true_div matched total * 100)%float.





(** The skills that [extract_skills_nlp] returns for a text that [nlp]
    accepts. *)
Definition found (resume_text : string) : list string :=
  skills_in (Str.lower resume_text).

(** The response of [analyse] for a text that [nlp] accepts. *)
Definition analysis (target_job_role resume_text : string) : Response :=
  score_resume target_job_role (get_target_skills_static target_job_role)
               (found resume_text).

(** The number of indicators that are 1. *)
Definition ones (values : list Z) : Z :=
  Z.of_nat (length (filter (λ v, v = 1%Z) values)).

(** A text that consists of white space, the empty text included. *)
Definition blank (s : string) : bool :=
  forallb Str.is_space (list_ascii_of_string s).

(** What holds of the user storage and of the session after any sequence of
    requests: the two users of the start are there with their passwords, the
    user of the session is registered, and the session holds either no
    analysis or all the fields of the analysis of some role and text. *)
Definition consistent (state : gmap string string * Session.t) : Prop :=
  INITIAL_USERS ⊆ state.1
  ∧ (∀ username, Session.user state.2 = Some username → is_Some (state.1 !! username))
  ∧ (Session.pop_user state.2 = Session.empty
     ∨ ∃ role text report,
         role ≠ "" ∧ blank text = false
         ∧ (∃ response, analyse role text = Ok response
                        ∧ stored response = Some report)
         ∧ state.2 = store_report report state.2).

(** * Properties *)

(** ** Strings *)

Section StrFacts.
Import Str.

Lemma startswith_spec (p s : string) :
  startswith p s = true ↔ ∃ post, s = p ++ post.
Proof.
  revert s. induction p as [|a p IH]; intros s; simpl.
  - split; [intros _; by exists s | done].
  - destruct s as [|b s].
    + split; [done | intros [post H]; discriminate H].
    + destruct (ascii_dec a b) as [->|Hne].
      * rewrite IH. split; intros [post H]; exists post; [by rewrite H | by injection H].
      * split; [done | intros [post H]; injection H as Hab _; by destruct Hne].
Qed.

Lemma contains_spec (sub s : string) :
  contains sub s = true ↔ substring_of sub s.
Proof.
  induction s as [|c s IH]; simpl.
  - rewrite orb_false_r, startswith_spec. split.
    + intros [post H]. by exists "", post.
    + intros [[|? ?] [post H]]; [by exists post | discriminate H].
  - rewrite orb_true_iff, IH, startswith_spec. split.
    + intros [[post H] | [pre [post H]]].
      * by exists "", post.
      * exists (String c pre), post. simpl. by rewrite H.
    + intros [[|a pre] [post H]].
      * left. by exists post.
      * right. exists pre, post. by injection H.
Qed.

Lemma has_char_app (c : ascii) (s t : string) :
  has_char c (s ++ t) = has_char c s || has_char c t.
Proof. induction s as [|a s IH]; simpl; [done|]. by destruct (ascii_dec a c). Qed.

(** [rsplit('.', 1)] cuts at the last dot. *)
Lemma rsplit_dot_spec (s : string) :
  if has_char "." s
  then ∃ before after, rsplit_dot s = [before; after]
         ∧ s = before ++ "." ++ after ∧ has_char "." after = false
  else rsplit_dot s = [s].
Proof.
  induction s as [|c s IH]; simpl; [done|].
  revert IH. destruct (has_char "." s) eqn:Hs; intros IH.
  - destruct IH as (before & after & Hcut & Hs' & Hafter).
    rewrite Hcut.
    assert (∃ b a, [String c before; after] = [b; a]
                   ∧ String c s = b ++ "." ++ a ∧ has_char "." a = false) as Hgoal.
    { exists (String c before), after. split_and!; [done| |done].
      simpl. by rewrite Hs' at 1. }
    by destruct (ascii_dec c ".").
  - rewrite IH. destruct (ascii_dec c ".") as [->|Hne]; [|done].
    by exists "", s.
Qed.

(** A cut at a last dot is the cut that [rsplit('.', 1)] makes. *)
Lemma rsplit_dot_unique (before after : string) :
  has_char "." after = false →
  rsplit_dot (before ++ "." ++ after) = [before; after].
Proof.
  intros Hafter. induction before as [|c before IH].
  - pose proof (rsplit_dot_spec after) as H. rewrite Hafter in H.
    change (rsplit_dot (String "." after) = [""; after]).
    cbn [rsplit_dot]. rewrite H. by destruct (ascii_dec "." ".").
  - change (rsplit_dot (String c (before ++ "." ++ after)) = [String c before; after]).
    cbn [rsplit_dot]. by rewrite IH.
Qed.

End StrFacts.

(** ** The extension check and the extractor *)

Lemma elem_of_ALLOWED_EXTENSIONS (ext : string) :
  ext ∈ ALLOWED_EXTENSIONS ↔ ext = "txt" ∨ ext = "pdf" ∨ ext = "docx".
Proof.
  unfold ALLOWED_EXTENSIONS. rewrite !elem_of_union, !elem_of_singleton. tauto.
Qed.

(** [allowed_file] never raises, and tells whether the text after the last
    dot is an allowed extension. *)
Lemma allowed_file_cases (name : string) :
  (Str.has_char "." name = false ∧ allowed_file name = Ok false)
  ∨ (∃ stem suffix,
       name = stem ++ "." ++ suffix ∧ Str.has_char "." suffix = false
       ∧ getitem (Str.rsplit_dot name) 1 = Ok suffix
       ∧ allowed_file name = Ok (bool_decide (Str.lower suffix ∈ ALLOWED_EXTENSIONS))).
Proof.
  unfold allowed_file. pose proof (rsplit_dot_spec name) as H.
  destruct (Str.has_char "." name); [right | by left].
  destruct H as (stem & suffix & Hcut & Hname & Hsuffix).
  exists stem, suffix. by rewrite Hcut.
Qed.

Lemma allowed_file_true (name : string) :
  allowed_file name = Ok true →
  ∃ suffix, getitem (Str.rsplit_dot name) 1 = Ok suffix
            ∧ (Str.lower suffix = "txt" ∨ Str.lower suffix = "pdf"
               ∨ Str.lower suffix = "docx").
Proof.
  destruct (allowed_file_cases name)
    as [[_ ->] | (stem & suffix & _ & _ & Hitem & ->)]; [done|].
  intros [= Hin%bool_decide_eq_true]. exists suffix.
  by rewrite <- elem_of_ALLOWED_EXTENSIONS.
Qed.

(** C6: [allowed_file] accepts a file name exactly when the text after its
    last dot, lowered, is txt, pdf or docx; for every other name [upload]
    answers "Invalid file type" whatever the file holds and whatever the
    parsers would make of it, so that no extraction takes place. *)
Theorem upload_accepts_only_allowed_suffixes (name : string) :
  ∃ accepted : bool,
    allowed_file name = Ok accepted
    ∧ (accepted = true ↔
         ∃ stem suffix,
           name = stem ++ "." ++ suffix ∧ Str.has_char "." suffix = false
           ∧ (Str.lower suffix = "txt" ∨ Str.lower suffix = "pdf"
              ∨ Str.lower suffix = "docx"))
    ∧ (accepted = false →
         ∀ decode pdf docx target_job_role data,
           upload_file decode pdf docx target_job_role
                       {| filename := name; stream := data |}
           = Ok (flash_and INVALID_FILE_TYPE "danger" (render_template "upload.html"))).
Proof.
  destruct (allowed_file_cases name)
    as [[Hdot Hallowed] | (stem & suffix & Hname & Hsuffix & Hitem & Hallowed)].
  - exists false. split_and!; [done| |].
    + split; [done|]. intros (stem & suffix & -> & _ & _).
      rewrite has_char_app in Hdot. simpl in Hdot.
      by rewrite orb_true_r in Hdot.
    + intros _ decode pdf docx role data. unfold upload_file. simpl.
      rewrite Hallowed. by destruct (Str.truthy name).
  - exists (bool_decide (Str.lower suffix ∈ ALLOWED_EXTENSIONS)).
    split_and!; [done| |].
    + rewrite bool_decide_eq_true, elem_of_ALLOWED_EXTENSIONS. split.
      * intros Hext. by exists stem, suffix.
      * intros (stem' & suffix' & Hname' & Hsuffix' & Hext).
        pose proof (rsplit_dot_unique stem' suffix' Hsuffix') as Hcut'.
        rewrite <- Hname' in Hcut'. unfold getitem in Hitem.
        rewrite Hcut' in Hitem. simpl in Hitem. by injection Hitem as ->.
    + intros Hrejected decode pdf docx role data. unfold upload_file. simpl.
      rewrite Hallowed, Hrejected. by destruct (Str.truthy name).
Qed.

Lemma upload_accepts_only_allowed_suffixes_witness :
  allowed_file "resume.exe" = Ok false
  ∧ upload_file decode_ascii pdf_unreadable docx_unreadable "Data Scientist"
                {| filename := "resume.exe"; stream := [] |}
    = Ok (flash_and INVALID_FILE_TYPE "danger" (render_template "upload.html")).
Proof.
  destruct (upload_accepts_only_allowed_suffixes "resume.exe")
    as (accepted & Hallowed & _ & Hrejected).
  vm_compute in Hallowed. injection Hallowed as <-.
  split; [reflexivity | by apply Hrejected].
Defined.

(** C10: for an accepted file name the subscript [[1]] of the extractor finds
    a suffix, the lowered suffix is one of txt, pdf and docx, and the
    extractor returns what the branch of that extension computes, never the
    initial empty text of the fall-through. *)
Theorem accepted_file_takes_one_branch
    (decode : list Byte.byte → string)
    (pdf : list Byte.byte → option (list (option string)))
    (docx : list Byte.byte → option (list string)) (file : FileStorage) :
  allowed_file (filename file) = Ok true →
  ∃ suffix,
    getitem (Str.rsplit_dot (filename file)) 1 = Ok suffix
    ∧ ((Str.lower suffix = "txt"
        ∧ extract_text_from_file decode pdf docx file
          = Ok (Some (decode (stream file))))
       ∨ (Str.lower suffix = "pdf"
          ∧ extract_text_from_file decode pdf docx file
            = Ok (pdf_text <$> pdf (stream file)))
       ∨ (Str.lower suffix = "docx"
          ∧ extract_text_from_file decode pdf docx file
            = Ok (docx_text <$> docx (stream file)))).
Proof.
  intros (suffix & Hitem & Hext)%allowed_file_true. exists suffix.
  split; [done|]. unfold extract_text_from_file. rewrite Hitem. simpl.
  destruct Hext as [Hext | [Hext | Hext]]; rewrite Hext; simpl.
  - by left.
  - right; left. split; [done|]. by destruct (pdf (stream file)).
  - right; right. split; [done|]. by destruct (docx (stream file)).
Qed.

Lemma accepted_file_takes_one_branch_witness :
  ∃ suffix,
    getitem (Str.rsplit_dot "cv.final.PDF") 1 = Ok suffix
    ∧ ((Str.lower suffix = "txt"
        ∧ extract_text_from_file decode_ascii pdf_unreadable docx_unreadable
            {| filename := "cv.final.PDF"; stream := [] |}
          = Ok (Some (decode_ascii [])))
       ∨ (Str.lower suffix = "pdf"
          ∧ extract_text_from_file decode_ascii pdf_unreadable docx_unreadable
              {| filename := "cv.final.PDF"; stream := [] |}
            = Ok (pdf_text <$> pdf_unreadable []))
       ∨ (Str.lower suffix = "docx"
          ∧ extract_text_from_file decode_ascii pdf_unreadable docx_unreadable
              {| filename := "cv.final.PDF"; stream := [] |}
            = Ok (docx_text <$> docx_unreadable []))).
Proof.
  apply (accepted_file_takes_one_branch decode_ascii pdf_unreadable docx_unreadable
           {| filename := "cv.final.PDF"; stream := [] |}).
  reflexivity.
Defined.

(** C5, on the code: for an accepted file whose extraction succeeds with the
    empty text, [upload] gives the answer it gives for a file that could not
    be parsed; only a text that is not empty and consists of white space gets
    the answer of its own. *)
Theorem empty_text_reported_as_unparsed
    (decode : list Byte.byte → string)
    (pdf : list Byte.byte → option (list (option string)))
    (docx : list Byte.byte → option (list string))
    (target_job_role : string) (file : FileStorage) (extracted : option string) :
  allowed_file (filename file) = Ok true →
  extract_text_from_file decode pdf docx file = Ok extracted →
  upload_file decode pdf docx target_job_role file =
    match extracted with
    | None => Ok (flash_and COULD_NOT_EXTRACT "danger" (redirect request_url))
    | Some text =>
        if decide (text = "") then
          Ok (flash_and COULD_NOT_EXTRACT "danger" (redirect request_url))
        else if decide (Str.strip text = "") then
          Ok (flash_and EXTRACTED_EMPTY "danger" (redirect request_url))
        else analyse target_job_role text
    end.
Proof.
  intros Hallowed Hextract. unfold upload_file.
  assert (Str.truthy (filename file) = true) as ->.
  { by destruct (filename file). }
  rewrite Hallowed. simpl. rewrite Hextract. simpl.
  destruct extracted as [[|a text]|]; [done| |done].
  rewrite decide_False by done.
  by destruct (Str.strip (String a text)).
Qed.

Lemma empty_text_reported_as_unparsed_witness :
  upload_file decode_ascii pdf_unreadable docx_unreadable "Data Scientist"
              {| filename := "resume.txt"; stream := [] |}
  = Ok (flash_and COULD_NOT_EXTRACT "danger" (redirect request_url))
  ∧ upload_file decode_ascii pdf_unreadable docx_unreadable "Data Scientist"
                {| filename := "resume.pdf"; stream := [] |}
    = Ok (flash_and COULD_NOT_EXTRACT "danger" (redirect request_url)).
Proof.
  split.
  - apply (empty_text_reported_as_unparsed decode_ascii pdf_unreadable docx_unreadable
             "Data Scientist" {| filename := "resume.txt"; stream := [] |} (Some ""));
      reflexivity.
  - apply (empty_text_reported_as_unparsed decode_ascii pdf_unreadable docx_unreadable
             "Data Scientist" {| filename := "resume.pdf"; stream := [] |} None);
      reflexivity.
Defined.

(** ** Target skills *)

(** C7: a role that is none of the four known roles gets the default skill
    list. *)
Theorem unknown_role_gets_default_skills (job_role : string) :
  job_role ≠ "Software Engineer" →
  job_role ≠ "Data Scientist" →
  job_role ≠ "Business Analyst" →
  job_role ≠ "Project Manager" →
  get_target_skills_static job_role
  = ["Communication"; "Problem Solving"; "Teamwork"; "Adaptability"].
Proof.
  intros Hse Hds Hba Hpm. unfold get_target_skills_static, JOB_ROLE_SKILLS.
  rewrite !list_to_map_cons, list_to_map_nil.
  rewrite !lookup_insert_ne by done. by rewrite lookup_empty.
Qed.

Lemma unknown_role_gets_default_skills_witness :
  get_target_skills_static "Astronaut"
  = ["Communication"; "Problem Solving"; "Teamwork"; "Adaptability"].
Proof. by apply (unknown_role_gets_default_skills "Astronaut"). Defined.

(** What holds of the default list and of every list of the table holds of
    the target skills of every role. *)
Lemma target_skills_ind (P : list string → Prop) :
  P DEFAULT_SKILLS →
  map_Forall (λ _ skills, P skills) JOB_ROLE_SKILLS →
  ∀ job_role, P (get_target_skills_static job_role).
Proof.
  intros Hdefault Htable job_role. unfold get_target_skills_static.
  destruct (JOB_ROLE_SKILLS !! job_role) as [skills|] eqn:Hrole; [|done].
  by apply (Htable job_role).
Qed.

(** The same for a property that can be evaluated. *)
Lemma target_skills_checked (P : list string → bool) :
  forallb P (DEFAULT_SKILLS :: (map_to_list JOB_ROLE_SKILLS).*2) = true →
  ∀ job_role, P (get_target_skills_static job_role) = true.
Proof.
  intros Hall. rewrite forallb_forall in Hall.
  apply (target_skills_ind (λ skills, P skills = true)).
  - apply Hall. by left.
  - intros role skills Hrole. apply Hall. right.
    apply (proj1 (list_elem_of_In _ _)).
    apply list_elem_of_fmap. exists (role, skills). split; [reflexivity|].
    apply elem_of_map_to_list. assumption.
Qed.

Lemma target_skills_nonempty (job_role : string) :
  get_target_skills_static job_role ≠ [].
Proof.
  pose proof (target_skills_checked
                (λ skills, match skills with [] => false | _ => true end)) as H.
  specialize (H ltac:(vm_compute; reflexivity) job_role).
  by destruct (get_target_skills_static job_role).
Qed.

Lemma vocabulary_checked (P : string → bool) :
  forallb P (elements ALL_POSSIBLE_SKILLS_LOWER) = true →
  ∀ skill, skill ∈ ALL_POSSIBLE_SKILLS_LOWER → P skill = true.
Proof.
  intros Hall skill Hskill. rewrite forallb_forall in Hall. apply Hall.
  apply (proj1 (list_elem_of_In _ _)). by apply (proj2 (elem_of_elements _ _)).
Qed.

Lemma in_vocabulary (skill : string) :
  existsb (String.eqb skill) (elements ALL_POSSIBLE_SKILLS_LOWER) = true →
  skill ∈ ALL_POSSIBLE_SKILLS_LOWER.
Proof.
  intros (s & Hs & ->%String.eqb_eq)%existsb_exists.
  apply (proj1 (elem_of_elements _ _)). by apply (proj2 (list_elem_of_In _ _)).
Qed.

Lemma all_in_vocabulary (skills : list string) :
  forallb (λ skill, existsb (String.eqb (Str.lower skill))
                            (elements ALL_POSSIBLE_SKILLS_LOWER)) skills = true →
  ∀ skill, skill ∈ skills → Str.lower skill ∈ ALL_POSSIBLE_SKILLS_LOWER.
Proof.
  intros Hall skill Hskill%list_elem_of_In. rewrite forallb_forall in Hall.
  apply in_vocabulary, Hall, Hskill.
Qed.

(** The lowered form of every target skill is in the vocabulary. *)
Lemma target_skill_in_vocabulary (job_role skill : string) :
  skill ∈ get_target_skills_static job_role →
  Str.lower skill ∈ ALL_POSSIBLE_SKILLS_LOWER.
Proof.
  revert skill. apply target_skills_ind.
  - apply all_in_vocabulary. vm_compute. reflexivity.
  - intros role skills Hrole skill Hskill. unfold ALL_POSSIBLE_SKILLS_LOWER.
    apply elem_of_union_l. apply (proj2 (elem_of_list_to_set _ _)).
    apply list_elem_of_fmap. exists skill. split; [reflexivity|].
    apply list_elem_of_join. exists skills. split; [assumption|].
    apply list_elem_of_fmap. exists (role, skills). split; [reflexivity|].
    apply elem_of_map_to_list. assumption.
Qed.

(** ** Skill extraction *)

Lemma extracted_set_spec (doc_text : string) (X : gset string) (shown : string) :
  shown ∈ set_fold (add_if_present doc_text) ∅ X ↔
  ∃ skill, skill ∈ X ∧ Str.contains skill doc_text = true ∧ shown = display skill.
Proof.
  revert shown.
  apply (set_fold_ind_L (λ extracted X, ∀ shown, shown ∈ extracted ↔
    ∃ skill, skill ∈ X ∧ Str.contains skill doc_text = true ∧ shown = display skill)).
  - intros shown. split; [by intros ?%not_elem_of_empty|].
    by intros (skill & ?%not_elem_of_empty & _).
  - intros x Y extracted Hx IH shown. unfold add_if_present.
    destruct (Str.contains x doc_text) eqn:Hcontains.
    + rewrite elem_of_union, elem_of_singleton, IH. split.
      * intros [-> | (skill & Hskill & Hin & ->)].
        -- exists x. split_and!; [|done..]. apply elem_of_union_l. by apply elem_of_singleton.
        -- exists skill. split_and!; [|done..]. by apply elem_of_union_r.
      * intros (skill & [->%elem_of_singleton | Hskill]%elem_of_union & Hin & ->);
          [by left | right; by exists skill].
    + rewrite IH. split.
      * intros (skill & Hskill & Hin & ->). exists skill.
        split_and!; [|done..]. by apply elem_of_union_r.
      * intros (skill & [->%elem_of_singleton | Hskill]%elem_of_union & Hin & ->);
          [congruence | by exists skill].
Qed.

(** The extracted skills are the display forms of the vocabulary skills that
    occur in the lowered text. *)
Lemma found_spec (resume_text shown : string) :
  shown ∈ found resume_text ↔
  ∃ skill, skill ∈ ALL_POSSIBLE_SKILLS_LOWER
           ∧ Str.contains skill (Str.lower resume_text) = true
           ∧ shown = display skill.
Proof.
  unfold found, skills_in. cbv zeta.
  rewrite elem_of_elements. apply extracted_set_spec.
Qed.

(** Lowering the display form of a vocabulary skill gives the skill back. *)
Lemma lower_display_vocabulary (skill : string) :
  skill ∈ ALL_POSSIBLE_SKILLS_LOWER → Str.lower (display skill) = skill.
Proof.
  intros Hskill. apply String.eqb_eq. revert skill Hskill.
  apply (vocabulary_checked (λ skill, String.eqb (Str.lower (display skill)) skill)).
  vm_compute. reflexivity.
Qed.

(** Membership of a vocabulary skill in [extracted_skills_lower] is presence
    of the skill in the lowered text. *)
Lemma extracted_skills_lower_spec (resume_text skill : string) :
  skill ∈ ALL_POSSIBLE_SKILLS_LOWER →
  skill ∈ (list_to_set (Str.lower <$> found resume_text) : gset string)
  ↔ Str.contains skill (Str.lower resume_text) = true.
Proof.
  intros Hskill. rewrite elem_of_list_to_set, list_elem_of_fmap. split.
  - intros (shown & -> & Hshown).
    apply (proj1 (found_spec _ _)) in Hshown
      as (skill' & Hskill' & Hin & ->).
    rewrite lower_display_vocabulary; assumption.
  - intros Hin. exists (display skill). split.
    + symmetry. apply lower_display_vocabulary. assumption.
    + apply (proj2 (found_spec _ _)). exists skill.
      split; [assumption | split; [assumption | reflexivity]].
Qed.

(** ** The scoring loop *)

Lemma score_step_eq (E : gset string) (count : Z) (labels : list string)
    (values : list Z) (skill : string) :
  score_step E (count, labels, values) skill
  = ((count + indicator E skill)%Z, (labels ++ [skill])%list,
     (values ++ [indicator E skill])%list).
Proof.
  unfold score_step, indicator.
  destruct (bool_decide (Str.lower skill ∈ E)); [done|]. by rewrite Z.add_0_r.
Qed.

Lemma ones_cons (v : Z) (values : list Z) :
  (v = 0 ∨ v = 1)%Z → ones (v :: values) = (v + ones values)%Z.
Proof.
  unfold ones. intros [-> | ->].
  - by rewrite filter_cons_False by done.
  - rewrite filter_cons_True by done. simpl length. lia.
Qed.

Lemma indicator_cases (E : gset string) (skill : string) :
  (indicator E skill = 0 ∨ indicator E skill = 1)%Z.
Proof. unfold indicator. destruct (bool_decide _); auto. Qed.

Lemma score_loop_from (E : gset string) (target : list string)
    (count : Z) (labels : list string) (values : list Z) :
  foldl (score_step E) (count, labels, values) target
  = ((count + ones (indicator E <$> target))%Z,
     (labels ++ target)%list, (values ++ (indicator E <$> target))%list).
Proof.
  revert count labels values.
  induction target as [|skill target IH]; intros count labels values.
  - cbn [foldl fmap list_fmap]. unfold ones. simpl.
    by rewrite Z.add_0_r, !app_nil_r.
  - cbn [foldl]. rewrite score_step_eq, IH, <- !app_assoc.
    rewrite fmap_cons, ones_cons by apply indicator_cases.
    f_equal. f_equal. lia.
Qed.

Lemma score_loop_spec (E : gset string) (target : list string) :
  score_loop E target
  = (ones (indicator E <$> target), target, indicator E <$> target).
Proof. unfold score_loop. by rewrite score_loop_from. Qed.


(** What [score_resume] stores for a target list that is not empty. *)
Lemma score_resume_stored (role : string) (target extracted : list string) :
  target ≠ [] →
  stored (score_resume role target extracted)
  = let E : gset string := list_to_set (Str.lower <$> extracted) in
    Some {| chart_labels := target;
            chart_values := indicator E <$> target;
            extracted_skills := extracted;
            target_job_skills := target;
            resume_score := score_of (ones (indicator E <$> target))
                                     (Z.of_nat (length target));
            selected_job_role := role |}.
Proof.
  intros Htarget. unfold score_resume.
  destruct target as [|skill target]; [done|].
  by rewrite score_loop_spec.
Qed.

(** For a target skill of the role, the indicator of the loop is the
    substring test on the lowered text. *)
Lemma indicator_present (job_role resume_text skill : string) :
  skill ∈ get_target_skills_static job_role →
  indicator (list_to_set (Str.lower <$> found resume_text)) skill
  = present resume_text skill.
Proof.
  intros Hskill%target_skill_in_vocabulary. unfold indicator, present.
  pose proof (extracted_skills_lower_spec resume_text _ Hskill) as Hspec.
  destruct (Str.contains (Str.lower skill) (Str.lower resume_text)).
  - rewrite bool_decide_eq_true_2; [reflexivity|]. apply (proj2 Hspec). reflexivity.
  - rewrite bool_decide_eq_false_2; [reflexivity|].
    intros Hin. apply (proj1 Hspec) in Hin. discriminate Hin.
Qed.

Lemma indicators_present (job_role resume_text : string) :
  indicator (list_to_set (Str.lower <$> found resume_text))
    <$> get_target_skills_static job_role
  = present resume_text <$> get_target_skills_static job_role.
Proof.
  apply list_fmap_ext. intros i skill Hi.
  apply (indicator_present job_role). by eapply list_elem_of_lookup_2.
Qed.

(** What [analysis] stores. *)
Lemma analysis_stored (job_role resume_text : string) :
  stored (analysis job_role resume_text)
  = let target := get_target_skills_static job_role in
    Some {| chart_labels := target;
            chart_values := present resume_text <$> target;
            extracted_skills := found resume_text;
            target_job_skills := target;
            resume_score := score_of (ones (present resume_text <$> target))
                                     (Z.of_nat (length target));
            selected_job_role := job_role |}.
Proof.
  unfold analysis. cbv zeta.
  rewrite score_resume_stored by apply target_skills_nonempty.
  cbv zeta. by rewrite indicators_present.
Qed.

(** ** The limit of [nlp] *)

Lemma length_lower (s : string) : String.length (Str.lower s) = String.length s.
Proof. induction s as [|c s IH]; [reflexivity|]. cbn. by rewrite IH. Qed.

Lemma nlp_lower_within (resume_text : string) :
  (Z.of_nat (String.length resume_text) ≤ NLP_MAX_LENGTH)%Z →
  nlp (Str.lower resume_text) = Ok (Str.lower resume_text).
Proof.
  intros Hlength. unfold nlp. rewrite length_lower.
  by rewrite (proj2 (Z.ltb_ge _ _) Hlength).
Qed.

Lemma nlp_lower_beyond (resume_text : string) :
  (NLP_MAX_LENGTH < Z.of_nat (String.length resume_text))%Z →
  nlp (Str.lower resume_text) = Raise (ValueError E088).
Proof.
  intros Hlength. unfold nlp. rewrite length_lower.
  by rewrite (proj2 (Z.ltb_lt _ _) Hlength).
Qed.

Lemma extract_skills_nlp_within (resume_text : string) :
  (Z.of_nat (String.length resume_text) ≤ NLP_MAX_LENGTH)%Z →
  extract_skills_nlp resume_text = Ok (found resume_text).
Proof. intros Hlength. unfold extract_skills_nlp. by rewrite nlp_lower_within. Qed.

Lemma extract_skills_nlp_beyond (resume_text : string) :
  (NLP_MAX_LENGTH < Z.of_nat (String.length resume_text))%Z →
  extract_skills_nlp resume_text = Raise (ValueError E088).
Proof. intros Hlength. unfold extract_skills_nlp. by rewrite nlp_lower_beyond. Qed.

(** [extract_skills_nlp] returns exactly for the texts within the limit. *)
Lemma extract_skills_nlp_Ok (resume_text : string) (skills : list string) :
  extract_skills_nlp resume_text = Ok skills →
  (Z.of_nat (String.length resume_text) ≤ NLP_MAX_LENGTH)%Z
  ∧ skills = found resume_text.
Proof.
  intros Hskills.
  destruct (Z.le_gt_cases (Z.of_nat (String.length resume_text)) NLP_MAX_LENGTH)
    as [Hwithin | Hbeyond].
  - rewrite extract_skills_nlp_within in Hskills by assumption.
    split; [assumption | congruence].
  - rewrite extract_skills_nlp_beyond in Hskills by assumption. discriminate Hskills.
Qed.

Lemma analyse_within (job_role resume_text : string) :
  (Z.of_nat (String.length resume_text) ≤ NLP_MAX_LENGTH)%Z →
  analyse job_role resume_text = Ok (analysis job_role resume_text).
Proof. intros Hlength. unfold analyse. by rewrite extract_skills_nlp_within. Qed.

Lemma analyse_beyond (job_role resume_text : string) :
  (NLP_MAX_LENGTH < Z.of_nat (String.length resume_text))%Z →
  analyse job_role resume_text = Raise (ValueError E088).
Proof. intros Hlength. unfold analyse. by rewrite extract_skills_nlp_beyond. Qed.

(** [analyse] returns exactly for the texts within the limit. *)
Lemma analyse_Ok (job_role resume_text : string) (response : Response) :
  analyse job_role resume_text = Ok response →
  (Z.of_nat (String.length resume_text) ≤ NLP_MAX_LENGTH)%Z
  ∧ response = analysis job_role resume_text.
Proof.
  intros Hresponse.
  destruct (Z.le_gt_cases (Z.of_nat (String.length resume_text)) NLP_MAX_LENGTH)
    as [Hwithin | Hbeyond].
  - rewrite analyse_within in Hresponse by assumption.
    split; [assumption | congruence].
  - rewrite analyse_beyond in Hresponse by assumption. discriminate Hresponse.
Qed.


(** ** Match indicators *)



(** C9: the skills of the vocabulary are in lower case, lowering the display
    form of one gives it back, and so a vocabulary skill is in the lowered set
    of extracted skills exactly when it is a substring of the lowered text. *)
Theorem display_case_is_undone_by_lower :
  (∀ skill : string,
     skill ∈ ALL_POSSIBLE_SKILLS_LOWER →
     Str.lower skill = skill ∧ Str.lower (display skill) = skill)
  ∧ (∀ (resume_text : string) (extracted : list string) (skill : string),
       extract_skills_nlp resume_text = Ok extracted →
       skill ∈ ALL_POSSIBLE_SKILLS_LOWER →
       skill ∈ (list_to_set (Str.lower <$> extracted) : gset string)
       ↔ Str.substring_of skill (Str.lower resume_text)).
Proof.
  split.
  - intros skill Hskill. split; [|by apply lower_display_vocabulary].
    apply String.eqb_eq. revert skill Hskill.
    apply (vocabulary_checked (λ skill, String.eqb (Str.lower skill) skill)).
    vm_compute. reflexivity.
  - intros text extracted skill [_ ->]%extract_skills_nlp_Ok Hskill.
    rewrite <- contains_spec. by apply extracted_skills_lower_spec.
Qed.

Lemma display_case_is_undone_by_lower_witness :
  Str.lower "version control (git)" = "version control (git)"
  ∧ Str.lower (display "version control (git)") = "version control (git)".
Proof.
  apply (proj1 display_case_is_undone_by_lower "version control (git)").
  apply (in_vocabulary "version control (git)"). vm_compute. reflexivity.
Defined.

(** ** Missing skills *)

Lemma missing_skills_filter (extracted target : list string) :
  missing_skills extracted target
  = filter (λ skill,
      indicator (list_to_set (Str.lower <$> extracted)) skill = 0%Z) target.
Proof.
  unfold missing_skills. apply list_filter_iff. intros skill. unfold indicator.
  rewrite <- (elem_of_list_to_set (C:=gset string)).
  destruct (bool_decide_reflect
              (Str.lower skill ∈ (list_to_set (Str.lower <$> extracted) : gset string)));
    split; intros; done.
Qed.

Lemma filter_zip_indicator (E : gset string) (target : list string) :
  (filter (λ entry : string * Z, entry.2 = 0%Z) (zip target (indicator E <$> target))).*1
  = filter (λ skill, indicator E skill = 0%Z) target.
Proof.
  induction target as [|skill target IH]; [done|].
  cbn [fmap list_fmap zip zip_with].
  destruct (decide (indicator E skill = 0%Z)) as [Hzero|Hone].
  - rewrite !filter_cons_True by done. cbn [fmap list_fmap]. by rewrite <- IH.
  - by rewrite !filter_cons_False by done.
Qed.

(** C8: the missing skills are the target skills whose indicator in the loop
    of [upload] is 0, in the order of the target list; the order of the
    extracted skills plays no part. *)
Theorem missing_skills_are_unmatched_targets (extracted target : list string) :
  let E : gset string := list_to_set (Str.lower <$> extracted) in
  let labels := (score_loop E target).1.2 in
  let values := (score_loop E target).2 in
  labels = target
  ∧ missing_skills extracted target
    = (filter (λ entry : string * Z, entry.2 = 0%Z) (zip labels values)).*1
  ∧ missing_skills extracted target `sublist_of` target
  ∧ ∀ reordered : list string,
      reordered ≡ₚ extracted →
      missing_skills reordered target = missing_skills extracted target.
Proof.
  intros E labels values. subst labels values. rewrite score_loop_spec.
  cbn [fst snd]. split; [reflexivity|]. split; [|split].
  - rewrite filter_zip_indicator. apply missing_skills_filter.
  - apply sublist_filter.
  - intros reordered Hperm. rewrite !missing_skills_filter.
    apply list_filter_iff. intros skill. unfold indicator.
    assert ((list_to_set (Str.lower <$> reordered) : gset string)
            = list_to_set (Str.lower <$> extracted)) as ->; [|done].
    apply set_eq. intros x. rewrite !elem_of_list_to_set.
    by rewrite Hperm.
Qed.

Lemma missing_skills_are_unmatched_targets_witness :
  missing_skills ["Teamwork"; "Sql"; "Communication"] DEFAULT_SKILLS
  = missing_skills ["Sql"; "Communication"; "Teamwork"] DEFAULT_SKILLS.
Proof.
  apply (missing_skills_are_unmatched_targets
           ["Sql"; "Communication"; "Teamwork"] DEFAULT_SKILLS).
  apply (Permutation_cons_append ["Sql"; "Communication"] "Teamwork").
Defined.

(** ** The score *)

















(** ** The chatbot *)

Lemma bind_Ok {A B : Type} (m : outcome A) (k : A → outcome B) (b : B) :
  m ≫= k = Ok b → ∃ a, m = Ok a ∧ k a = Ok b.
Proof. destruct m as [a|e]; [by exists a | done]. Qed.

Lemma item_Ok (v : json) (key : string) (x : json) :
  item v key = Ok x →
  ∃ members, v = JObj members ∧ lookup_member key members = Some x.
Proof.
  destruct v as [| | | | | |members]; try done. cbn.
  destruct (lookup_member key members) as [y|] eqn:Hy; [|done].
  intros [= ->]. by exists members.
Qed.

Lemma item0_Ok_obj (v : json) (members : list (string * json)) :
  item0 v = Ok (JObj members) → ∃ rest, v = JArr (JObj members :: rest).
Proof.
  destruct v as [| | | |[|c s]|[|x rest]|]; try done. intros [= ->]. by exists rest.
Qed.

Lemma slice100_Ok (v x : json) :
  slice100 v = Ok x → (∃ text, v = JStr text) ∨ (∃ items, v = JArr items).
Proof. destruct v; try done; eauto. Qed.

Lemma truthy_member (key : string) (members : list (string * json)) (x : json) :
  lookup_member key members = Some x → truthy (JObj members) = true.
Proof. by destruct members. Qed.

(** A reply of the [else] branch is one of its two messages. *)
Lemma explain_failure_Ok (result reply : json) :
  explain_failure result = Ok reply →
  reply = JStr BLOCKED ∨ reply = JStr UNEXPECTED_FORMAT.
Proof.
  unfold explain_failure. intros (blocked & _ & Hreply)%bind_Ok.
  destruct (truthy blocked); injection Hreply as <-; auto.
Qed.

(** A reply of the [if] branch is the text of the first part of the first
    candidate, and that text is a string or a list. *)
Lemma generated_text_Ok (result reply : json) :
  generated_text result = Ok reply →
  first_text result = Some reply
  ∧ ((∃ text, reply = JStr text) ∨ (∃ items, reply = JArr items)).
Proof.
  unfold generated_text, first_content, first_candidate.
  intros (content & Hcontent & (parts & Hparts & (part & Hpart & (text & Htext
            & (printed & Hprinted & [= <-])%bind_Ok)%bind_Ok)%bind_Ok)%bind_Ok)%bind_Ok.
  apply bind_Ok in Hcontent
    as (candidate & (candidates & Hcandidates & Hcandidate)%bind_Ok & Hcontent).
  apply item_Ok in Htext as (part_members & -> & Htext).
  apply item0_Ok_obj in Hpart as (parts_rest & ->).
  apply item_Ok in Hparts as (content_members & -> & Hparts).
  apply item_Ok in Hcontent as (candidate_members & -> & Hcontent).
  apply item0_Ok_obj in Hcandidate as (candidates_rest & ->).
  apply item_Ok in Hcandidates as (members & -> & Hcandidates).
  split; [|by eapply slice100_Ok].
  cbn. by rewrite Hcandidates, Hcontent, Hparts.
Qed.

(** Conversely the first text is the reply when it is a string or a list. *)
Lemma first_text_reply (result text : json) :
  first_text result = Some text →
  (∃ s, text = JStr s) ∨ (∃ items, text = JArr items) →
  read_response result = Ok text.
Proof.
  unfold first_text. intros Hfirst Hsliced.
  destruct result as [| | | | | |members]; try done.
  destruct (lookup_member "candidates" members)
    as [[| | | | |[|[| | | | | |candidate] candidates_rest]|]|] eqn:Hcandidates;
    try done.
  destruct (lookup_member "content" candidate)
    as [[| | | | | |content]|] eqn:Hcontent; try done.
  destruct (lookup_member "parts" content)
    as [[| | | | |[|[| | | | | |part] parts_rest]|]|] eqn:Hparts; try done.
  unfold read_response, has_parts, generated_text, first_content, first_candidate,
    and_then.
  cbn. rewrite Hcandidates. cbn. rewrite Hcontent. cbn.
  change (match content with [] => false | _ :: _ => true end)
    with (truthy (JObj content)).
  rewrite (truthy_member _ _ _ Hparts). rewrite Hparts. cbn.
  rewrite Hfirst. cbn. by destruct Hsliced as [[s ->] | [items ->]].
Qed.

Lemma read_response_Ok (result reply : json) :
  read_response result = Ok reply →
  reply = JStr BLOCKED ∨ reply = JStr UNEXPECTED_FORMAT
  ∨ (first_text result = Some reply
     ∧ ((∃ text, reply = JStr text) ∨ (∃ items, reply = JArr items))).
Proof.
  unfold read_response. intros (filled & _ & Hreply)%bind_Ok.
  destruct (truthy filled).
  - right; right. by apply generated_text_Ok.
  - apply explain_failure_Ok in Hreply as [-> | ->]; auto.
Qed.

Lemma fallback_for_nonempty (exn_str : exn → string) (e : exn) :
  fallback_for exn_str e ≠ "".
Proof. by destruct e. Qed.

(** The reply of [call_gemini_api_for_chatbot], case by case. *)
Lemma call_gemini_api_for_chatbot_cases
    (key : string) (post : string → json → outcome json)
    (exn_str : exn → string) (prompt : string) :
  call_gemini_api_for_chatbot key post exn_str prompt
  = Ok (if negb (Str.truthy key) then JStr NOT_CONFIGURED
        else match post (api_url key) (chat_payload prompt) with
             | Raise e => JStr (fallback_for exn_str e)
             | Ok result =>
                 match read_response result with
                 | Ok reply => reply
                 | Raise e => JStr (fallback_for exn_str e)
                 end
             end).
Proof.
  unfold call_gemini_api_for_chatbot. destruct (negb (Str.truthy key)); [done|].
  cbv zeta. destruct (post (api_url key) (chat_payload prompt)) as [result|e]; cbn.
  - destruct (read_response result) as [reply|e]; cbn; [done|]. by destruct e.
  - by destruct e.
Qed.

(** The reply once the service has answered with [result]. *)
Lemma reply_of_response (exn_str : exn → string) (result : json) :
  let reply :=
    match read_response result with
    | Ok reply => reply
    | Raise e => JStr (fallback_for exn_str e)
    end in
  match first_text result with
  | Some (JStr text) => reply = JStr text
  | Some (JArr items) => reply = JArr items
  | _ => ∃ message, reply = JStr message ∧ message ≠ ""
  end.
Proof.
  cbv zeta.
  assert (∀ text, first_text result = Some text →
                  (∃ s, text = JStr s) ∨ (∃ items, text = JArr items) →
                  match read_response result with
                  | Ok reply => reply
                  | Raise e => JStr (fallback_for exn_str e)
                  end = text) as Htext.
  { intros text Hfirst Hsliced. by rewrite (first_text_reply _ _ Hfirst Hsliced). }
  assert ((∀ text, first_text result = Some text →
                   ¬ ((∃ s, text = JStr s) ∨ (∃ items, text = JArr items))) →
          ∃ message,
            match read_response result with
            | Ok reply => reply
            | Raise e => JStr (fallback_for exn_str e)
            end = JStr message ∧ message ≠ "") as Hother.
  { intros Hnot. destruct (read_response result) as [reply|e] eqn:Hread.
    - apply read_response_Ok in Hread as [-> | [-> | [Hfirst Hsliced]]].
      + by exists BLOCKED.
      + by exists UNEXPECTED_FORMAT.
      + by destruct (Hnot _ Hfirst).
    - exists (fallback_for exn_str e). split; [done|]. apply fallback_for_nonempty. }
  destruct (first_text result) as [text|].
  - destruct text; try (apply Hother; intros ? [= <-] [[? [=]] | [? [=]]]).
    + apply Htext; eauto.
    + apply Htext; eauto.
  - apply Hother. intros ? [=].
Qed.

(** C4, as the code has it: [call_gemini_api_for_chatbot] never raises; with
    no API key, on a transport failure, on a response without a first text and
    on a content-policy block it returns a message that is not empty;
    otherwise it returns the first text as the service sent it, which can be
    empty; [chatbot] shows a reply only when it is not empty. *)
Theorem chat_completion_falls_back
    (key : string) (post : string → json → outcome json) (exn_str : exn → string) :
  (∀ prompt : string,
     ∃ reply,
       call_gemini_api_for_chatbot key post exn_str prompt = Ok reply
       ∧ (key = "" → reply = JStr NOT_CONFIGURED)
       ∧ (key ≠ "" →
          match post (api_url key) (chat_payload prompt) with
          | Raise e => reply = JStr (fallback_for exn_str e)
          | Ok result =>
              match first_text result with
              | Some (JStr text) => reply = JStr text
              | Some (JArr items) => reply = JArr items
              | _ => ∃ message, reply = JStr message ∧ message ≠ ""
              end
          end)
       ∧ (∀ reason,
            key ≠ "" → reason ≠ "" →
            post (api_url key) (chat_payload prompt)
            = Ok (JObj [("promptFeedback", JObj [("blockReason", JStr reason)])]) →
            reply = JStr BLOCKED)
       ∧ ((∃ message, reply = JStr message ∧ message ≠ "")
          ∨ (∃ result,
               post (api_url key) (chat_payload prompt) = Ok result
               ∧ first_text result = Some reply)))
  ∧ (∀ request : ChatRequest,
       match chatbot key post exn_str request with
       | Ok page =>
           response page = None
           ∨ (∃ shown, response page = Some shown ∧ truthy shown = true)
       | Raise e => form_query request = None
       end).
Proof.
  split.
  - intros prompt. rewrite call_gemini_api_for_chatbot_cases.
    eexists. split; [reflexivity|].
    destruct key as [|c key]; cbn [Str.truthy negb].
    { split; [done|]. split; [done|]. split; [done|]. left. by eexists. }
    split; [done|].
    destruct (post (api_url (String c key)) (chat_payload prompt)) as [result|e].
    + pose proof (reply_of_response exn_str result) as Hreply. cbv zeta in Hreply.
      split; [intros _; exact Hreply|]. split.
      * intros reason _ Hreason [= ->]. cbn. by destruct reason.
      * destruct (first_text result) as [[| | | |text|items|]|] eqn:Hfirst;
          try (left; exact Hreply); right; exists result;
          (split; [reflexivity|]); by rewrite Hreply.
    + split; [done|]. split; [done|]. left. eexists. split; [reflexivity|].
      apply fallback_for_nonempty.
  - intros request. unfold chatbot.
    destruct (chat_session_user request); [|left; reflexivity].
    destruct (chat_method request); [left; reflexivity|].
    destruct (form_query request) as [query|]; [|reflexivity]. cbn.
    destruct (Str.truthy query); [|left; reflexivity].
    rewrite call_gemini_api_for_chatbot_cases. cbn.
    match goal with |- context [negb (truthy ?reply)] =>
      destruct (truthy reply) eqn:Htruthy end; cbn; right; eauto.
Qed.

(** C4, as the claim has it, fails: when the service answers with a first
    text that is empty, the reply is the empty string. *)
Lemma chat_completion_can_be_empty :
  call_gemini_api_for_chatbot "secret" (answer_with "") exn_message "Hello"
  = Ok (JStr "").
Proof. reflexivity. Qed.

Lemma chat_completion_falls_back_witness :
  ∃ reply,
    call_gemini_api_for_chatbot "secret" blocked_for_safety exn_message "Hello"
    = Ok reply
    ∧ reply = JStr BLOCKED.
Proof.
  destruct (proj1 (chat_completion_falls_back "secret" blocked_for_safety exn_message)
              "Hello") as (reply & Hcall & _ & _ & Hblocked & _).
  exists reply. split; [assumption|].
  by apply (Hblocked "SAFETY").
Defined.

(** * Further properties of the code *)

(** ** More on strings *)

Lemma str_app_cons (x : ascii) (a b : string) : String x a ++ b = String x (a ++ b).
Proof. reflexivity. Qed.

Lemma str_app_assoc (a b c : string) : (a ++ b) ++ c = a ++ b ++ c.
Proof. induction a as [|x a IH]; [done|]. rewrite !str_app_cons. by f_equal. Qed.

Lemma str_app_nil_r (a : string) : a ++ "" = a.
Proof. induction a as [|x a IH]; [done|]. rewrite str_app_cons. by f_equal. Qed.

Lemma str_app_empty (a b : string) : a ++ b = "" ↔ a = "" ∧ b = "".
Proof.
  destruct a as [|x a]; [change ("" ++ b) with b; by split; [|intros [_ ?]]|].
  rewrite str_app_cons. split; [done|]. by intros [? _].
Qed.

Lemma substring_of_refl (s : string) : Str.substring_of s s.
Proof. exists "", "". change ("" ++ s ++ "") with (s ++ ""). by rewrite str_app_nil_r. Qed.

Lemma substring_of_trans (a b c : string) :
  Str.substring_of a b → Str.substring_of b c → Str.substring_of a c.
Proof.
  intros (pre & post & ->) (pre' & post' & ->).
  exists (pre' ++ pre), (post ++ post'). by rewrite !str_app_assoc.
Qed.



(** A string made of white space only. *)
Lemma lstrip_empty (s : string) : Str.lstrip s = "" ↔ blank s = true.
Proof.
  unfold blank. induction s as [|c s IH]; [done|]. simpl.
  destruct (Str.is_space c); [exact IH | done].
Qed.

Lemma rstrip_empty (s : string) : Str.rstrip s = "" ↔ blank s = true.
Proof.
  unfold blank. induction s as [|c s IH]; [done|]. simpl.
  destruct (Str.rstrip s) as [|a r].
  - destruct (Str.is_space c); simpl; [|done].
    split; [intros _; by apply IH | done].
  - split; [done|]. intros [_ H]%andb_true_iff. by apply IH in H.
Qed.

Lemma blank_lstrip (s : string) : blank (Str.lstrip s) = blank s.
Proof.
  unfold blank. induction s as [|c s IH]; [done|]. simpl.
  destruct (Str.is_space c) eqn:Hc; [exact IH|]. simpl. by rewrite Hc.
Qed.

(** [s.strip()] is empty exactly when [s] consists of white space. *)
Lemma strip_empty (s : string) : Str.strip s = "" ↔ blank s = true.
Proof. unfold Str.strip. by rewrite rstrip_empty, blank_lstrip. Qed.

Lemma blank_app (a b : string) : blank (a ++ b) = blank a && blank b.
Proof.
  unfold blank. induction a as [|x a IH]; [done|]. rewrite str_app_cons.
  cbn [list_ascii_of_string forallb]. by rewrite IH, andb_assoc.
Qed.

(** ** More on the extractor *)

Lemma foldl_append {A : Type} (f : A → string) (l : list A) (text : string) :
  foldl (λ text x, text ++ f x) text l = text ++ foldl (λ text x, text ++ f x) "" l.
Proof.
  revert text. induction l as [|x l IH]; intros text; cbn [foldl].
  - by rewrite str_app_nil_r.
  - rewrite IH, (IH ("" ++ f x)). change ("" ++ f x) with (f x).
    by rewrite str_app_assoc.
Qed.

Lemma pdf_text_from (pages : list (option string)) (text : string) :
  foldl (λ text_content page, text_content ++ default "" page) text pages
  = text ++ pdf_text pages.
Proof. apply (foldl_append (λ page, default "" page)). Qed.

Lemma docx_text_from (paragraphs : list string) (text : string) :
  foldl (λ text_content paragraph, text_content ++ paragraph ++ LF) text paragraphs
  = text ++ docx_text paragraphs.
Proof. apply (foldl_append (λ paragraph, paragraph ++ LF)). Qed.

Lemma pdf_text_cons (page : option string) (pages : list (option string)) :
  pdf_text (page :: pages) = default "" page ++ pdf_text pages.
Proof.
  unfold pdf_text at 1. cbn [foldl]. rewrite pdf_text_from. reflexivity.
Qed.

Lemma docx_text_cons (paragraph : string) (paragraphs : list string) :
  docx_text (paragraph :: paragraphs) = paragraph ++ LF ++ docx_text paragraphs.
Proof.
  unfold docx_text at 1. cbn [foldl].
  change (foldl _ ("" ++ paragraph ++ _) paragraphs)
    with (foldl (λ text_content p, text_content ++ p ++ LF) (paragraph ++ LF) paragraphs).
  rewrite docx_text_from. by rewrite str_app_assoc.
Qed.

(** The extractor for a name cut at its last dot. *)
Lemma extract_by_suffix
    (decode : list Byte.byte → string)
    (pdf : list Byte.byte → option (list (option string)))
    (docx : list Byte.byte → option (list string))
    (stem suffix : string) (data : list Byte.byte) :
  Str.has_char "." suffix = false →
  extract_text_from_file decode pdf docx
    {| filename := stem ++ "." ++ suffix; stream := data |}
  = if decide (Str.lower suffix = "txt") then Ok (Some (decode data))
    else if decide (Str.lower suffix = "pdf") then Ok (pdf_text <$> pdf data)
    else if decide (Str.lower suffix = "docx") then Ok (docx_text <$> docx data)
    else Ok (Some "").
Proof.
  intros Hsuffix. unfold extract_text_from_file. cbn [filename stream].
  rewrite (rsplit_dot_unique _ _ Hsuffix). cbn.
  repeat case_decide; try done.
  - by destruct (pdf data).
  - by destruct (docx data).
Qed.

Lemma allowed_by_suffix (stem suffix : string) :
  Str.has_char "." suffix = false →
  allowed_file (stem ++ "." ++ suffix)
  = Ok (bool_decide (Str.lower suffix ∈ ALLOWED_EXTENSIONS)).
Proof.
  intros Hsuffix. unfold allowed_file.
  rewrite has_char_app. cbn [Str.has_char]. rewrite orb_true_r.
  cbn [append]. destruct (ascii_dec "." "."); [|done].
  by rewrite (rsplit_dot_unique _ _ Hsuffix).
Qed.

Lemma pdf_text_empty (pages : list (option string)) :
  pdf_text pages = "" ↔ Forall (λ page, page = None ∨ page = Some "") pages.
Proof.
  induction pages as [|page pages IH].
  - split; [constructor | done].
  - rewrite pdf_text_cons, str_app_empty, IH, Forall_cons. split.
    + intros [Hpage Hpages]. split; [|done].
      destruct page as [text|]; [right; by rewrite <- Hpage | by left].
    + intros [[-> | ->] Hpages]; by split.
Qed.

Lemma docx_text_empty (paragraphs : list string) :
  docx_text paragraphs = "" ↔ paragraphs = [].
Proof.
  destruct paragraphs as [|paragraph paragraphs]; [done|].
  rewrite docx_text_cons. split; [|done].
  intros (_ & (HLF & _)%str_app_empty)%str_app_empty.
  unfold LF in HLF. discriminate HLF.
Qed.

Lemma docx_text_join (paragraph : string) (paragraphs : list string) :
  docx_text (paragraph :: paragraphs) = Str.join LF (paragraph :: paragraphs) ++ LF.
Proof.
  revert paragraph.
  induction paragraphs as [|next paragraphs IH]; intros paragraph.
  - rewrite docx_text_cons. reflexivity.
  - rewrite docx_text_cons, IH. cbn [Str.join]. by rewrite !str_app_assoc.
Qed.

Lemma blank_docx_text (paragraphs : list string) :
  blank (docx_text paragraphs) = forallb blank paragraphs.
Proof.
  induction paragraphs as [|paragraph paragraphs IH]; [done|].
  rewrite docx_text_cons, !blank_app, IH. cbn [forallb].
  change (blank LF) with true. by rewrite andb_true_l.
Qed.

(** What [upload] does with an accepted file, by the text extracted. *)
Lemma upload_file_by_text
    (decode : list Byte.byte → string)
    (pdf : list Byte.byte → option (list (option string)))
    (docx : list Byte.byte → option (list string))
    (role : string) (file : FileStorage) (extracted : option string) :
  allowed_file (filename file) = Ok true →
  extract_text_from_file decode pdf docx file = Ok extracted →
  upload_file decode pdf docx role file =
    match extracted with
    | None => Ok (flash_and COULD_NOT_EXTRACT "danger" (redirect request_url))
    | Some text =>
        if decide (text = "") then
          Ok (flash_and COULD_NOT_EXTRACT "danger" (redirect request_url))
        else if blank text then
          Ok (flash_and EXTRACTED_EMPTY "danger" (redirect request_url))
        else analyse role text
    end.
Proof.
  intros Hallowed Hextract. unfold upload_file.
  assert (Str.truthy (filename file) = true) as ->.
  { by destruct (filename file). }
  rewrite Hallowed. cbn. rewrite Hextract. cbn.
  destruct extracted as [[|a text]|]; [done| |done].
  rewrite decide_False by done.
  pose proof (strip_empty (String a text)) as Hstrip.
  destruct (Str.strip (String a text)) as [|b stripped].
  - rewrite (proj1 Hstrip eq_refl). reflexivity.
  - destruct (blank (String a text)); [|reflexivity].
    by specialize (proj2 Hstrip eq_refl).
Qed.

Lemma analysis_succeeds (role text : string) :
  body (analysis role text) = redirect (url_for "charts")
  ∧ is_Some (stored (analysis role text)).
Proof.
  split; [|rewrite analysis_stored; by eexists].
  unfold analysis, score_resume. cbv zeta.
  pose proof (target_skills_nonempty role) as Htarget.
  destruct (get_target_skills_static role); [done|].
  by destruct (score_loop _ _) as [[? ?] ?].
Qed.

(** Every answer of [upload] for a named file. *)
Lemma upload_file_cases
    (decode : list Byte.byte → string)
    (pdf : list Byte.byte → option (list (option string)))
    (docx : list Byte.byte → option (list string))
    (role : string) (file : FileStorage) :
  (∃ message category v,
     upload_file decode pdf docx role file = Ok (flash_and message category v)
     ∧ v ≠ redirect (url_for "charts"))
  ∨ (∃ text,
       allowed_file (filename file) = Ok true
       ∧ extract_text_from_file decode pdf docx file = Ok (Some text)
       ∧ blank text = false
       ∧ upload_file decode pdf docx role file = analyse role text).
Proof.
  destruct (allowed_file_cases (filename file))
    as [[_ Hallowed] | (stem & suffix & Hname & Hsuffix & _ & Hallowed)].
  - left. exists INVALID_FILE_TYPE, "danger", (render_template "upload.html").
    split; [|done]. unfold upload_file. rewrite Hallowed.
    by destruct (Str.truthy (filename file)).
  - destruct (bool_decide (Str.lower suffix ∈ ALLOWED_EXTENSIONS)) eqn:Hext.
    + assert (∃ extracted,
               extract_text_from_file decode pdf docx file = Ok extracted)
        as [extracted Hextract].
      { destruct file as [name data]. cbn [filename] in *. subst name.
        rewrite (extract_by_suffix _ _ _ _ _ _ Hsuffix).
        repeat case_decide; eauto. }
      rewrite (upload_file_by_text _ _ _ _ _ _ Hallowed Hextract).
      destruct extracted as [text|].
      * destruct (decide (text = "")); [left; by eexists _, _, _|].
        destruct (blank text) eqn:Hblank; [left; by eexists _, _, _|].
        right. by exists text.
      * left. by eexists _, _, _.
    + left. exists INVALID_FILE_TYPE, "danger", (render_template "upload.html").
      split; [|done]. unfold upload_file. rewrite Hallowed.
      by destruct (Str.truthy (filename file)).
Qed.

(** X1: called without the extension check, the extractor raises
    [IndexError] for a name without a dot, and for a name whose suffix is
    none of the three extensions it returns the empty text without reading
    the file. *)
Theorem extractor_without_the_guard
    (decode : list Byte.byte → string)
    (pdf : list Byte.byte → option (list (option string)))
    (docx : list Byte.byte → option (list string)) (file : FileStorage) :
  (Str.has_char "." (filename file) = false →
   extract_text_from_file decode pdf docx file = Raise IndexError)
  ∧ (∀ stem suffix,
       filename file = stem ++ "." ++ suffix →
       Str.has_char "." suffix = false →
       Str.lower suffix ∉ ALLOWED_EXTENSIONS →
       extract_text_from_file decode pdf docx file = Ok (Some "")).
Proof.
  split.
  - intros Hdot. unfold extract_text_from_file.
    pose proof (rsplit_dot_spec (filename file)) as Hcut.
    rewrite Hdot in Hcut. by rewrite Hcut.
  - intros stem suffix Hname Hsuffix Hext. destruct file as [name data].
    cbn [filename] in Hname. subst name.
    rewrite (extract_by_suffix _ _ _ _ _ _ Hsuffix).
    rewrite elem_of_ALLOWED_EXTENSIONS in Hext.
    repeat case_decide; tauto.
Qed.

Lemma extractor_without_the_guard_witness :
  extract_text_from_file decode_ascii pdf_unreadable docx_unreadable
    {| filename := "README"; stream := [] |} = Raise IndexError.
Proof.
  by apply (extractor_without_the_guard decode_ascii pdf_unreadable docx_unreadable
              {| filename := "README"; stream := [] |}).
Defined.

(** X2: the text of a PDF is empty exactly when no page yields text, and
    such a PDF is answered like a file that could not be parsed. *)
Theorem textless_pdf_reported_as_unreadable
    (decode : list Byte.byte → string)
    (pdf : list Byte.byte → option (list (option string)))
    (docx : list Byte.byte → option (list string))
    (role stem suffix : string) (data : list Byte.byte)
    (pages : list (option string)) :
  Str.has_char "." suffix = false →
  Str.lower suffix = "pdf" →
  pdf data = Some pages →
  (pdf_text pages = "" ↔ Forall (λ page, page = None ∨ page = Some "") pages)
  ∧ (Forall (λ page, page = None ∨ page = Some "") pages →
     upload_file decode pdf docx role
                 {| filename := stem ++ "." ++ suffix; stream := data |}
     = Ok (flash_and COULD_NOT_EXTRACT "danger" (redirect request_url))).
Proof.
  intros Hsuffix Hext Hpdf. split; [apply pdf_text_empty|].
  intros Hpages%pdf_text_empty.
  rewrite (upload_file_by_text decode pdf docx role _ (Some "")).
  - reflexivity.
  - cbn [filename]. rewrite (allowed_by_suffix _ _ Hsuffix), Hext. reflexivity.
  - rewrite (extract_by_suffix _ _ _ _ _ _ Hsuffix), Hext, Hpdf. cbn.
    by rewrite Hpages.
Qed.

Lemma textless_pdf_reported_as_unreadable_witness :
  upload_file decode_ascii (λ _, Some [None; Some ""; None]) docx_unreadable
              "Data Scientist" {| filename := "scan.PDF"; stream := [] |}
  = Ok (flash_and COULD_NOT_EXTRACT "danger" (redirect request_url)).
Proof.
  apply (textless_pdf_reported_as_unreadable decode_ascii
           (λ _, Some [None; Some ""; None]) docx_unreadable
           "Data Scientist" "scan" "PDF" [] [None; Some ""; None]);
    [reflexivity..|].
  repeat (constructor 2; [solve [auto]|]). constructor 1.
Defined.

(** X3: a DOCX file without paragraphs is answered like a file that could
    not be parsed; one whose paragraphs are all blank is answered with the
    message for an empty text; any other is analysed on its paragraphs, each
    followed by a line feed, and so raises [ValueError] when these have more
    than [nlp.max_length] characters. *)
Theorem docx_upload_by_paragraphs
    (decode : list Byte.byte → string)
    (pdf : list Byte.byte → option (list (option string)))
    (docx : list Byte.byte → option (list string))
    (role stem suffix : string) (data : list Byte.byte)
    (paragraphs : list string) :
  Str.has_char "." suffix = false →
  Str.lower suffix = "docx" →
  docx data = Some paragraphs →
  upload_file decode pdf docx role
              {| filename := stem ++ "." ++ suffix; stream := data |}
  = match paragraphs with
    | [] => Ok (flash_and COULD_NOT_EXTRACT "danger" (redirect request_url))
    | _ :: _ =>
        if forallb blank paragraphs then
          Ok (flash_and EXTRACTED_EMPTY "danger" (redirect request_url))
        else analyse role (Str.join LF paragraphs ++ LF)
    end.
Proof.
  intros Hsuffix Hext Hdocx.
  rewrite (upload_file_by_text decode pdf docx role _ (Some (docx_text paragraphs))).
  - destruct paragraphs as [|paragraph paragraphs]; [reflexivity|].
    rewrite decide_False.
    2: { intros Hempty%docx_text_empty. discriminate Hempty. }
    rewrite blank_docx_text.
    destruct (forallb blank (paragraph :: paragraphs)); [reflexivity|].
    by rewrite docx_text_join.
  - cbn [filename]. rewrite (allowed_by_suffix _ _ Hsuffix), Hext. reflexivity.
  - rewrite (extract_by_suffix _ _ _ _ _ _ Hsuffix), Hext, Hdocx. reflexivity.
Qed.

Lemma docx_upload_by_paragraphs_witness :
  upload_file decode_ascii pdf_unreadable (λ _, Some [""; "  "]) "Data Scientist"
              {| filename := "cv.docx"; stream := [] |}
  = Ok (flash_and EXTRACTED_EMPTY "danger" (redirect request_url))
  ∧ ∃ response report,
      upload_file decode_ascii pdf_unreadable (λ _, Some ["Teamwork"; ""]) "Astronaut"
                  {| filename := "cv.DOCX"; stream := [] |}
      = Ok response
      ∧ stored response = Some report
      ∧ chart_labels report = DEFAULT_SKILLS
      ∧ chart_values report = [0; 0; 1; 0]%Z.
Proof.
  split.
  - by apply (docx_upload_by_paragraphs decode_ascii pdf_unreadable
                (λ _, Some [""; "  "]) "Data Scientist" "cv" "docx" [] [""; "  "]).
  - pose proof (docx_upload_by_paragraphs decode_ascii pdf_unreadable
                  (λ _, Some ["Teamwork"; ""]) "Astronaut" "cv" "DOCX" []
                  ["Teamwork"; ""] eq_refl eq_refl eq_refl) as Hupload.
    change (upload_file decode_ascii pdf_unreadable (λ _, Some ["Teamwork"; ""])
              "Astronaut" {| filename := "cv.DOCX"; stream := [] |}
            = analyse "Astronaut" (Str.join LF ["Teamwork"; ""] ++ LF)) in Hupload.
    rewrite analyse_within in Hupload by (apply Z.leb_le; vm_compute; reflexivity).
    eexists _, _. split; [exact Hupload|]. rewrite analysis_stored. cbv zeta.
    split; [reflexivity|].
    cbv beta iota delta [chart_labels chart_values].
    split; vm_compute; reflexivity.
Defined.







(** Every answer of [upload]: a failure that stores nothing, or the analysis
    of the role and of the text extracted. *)
Lemma upload_cases
    (decode : list Byte.byte → string)
    (pdf : list Byte.byte → option (list (option string)))
    (docx : list Byte.byte → option (list string))
    (request : Request) (response : Response) :
  upload decode pdf docx request = Ok response →
  (stored response = None ∧ body response ≠ redirect (url_for "charts"))
  ∨ (∃ user role file text,
       session_user request = Some user
       ∧ method request = POST
       ∧ form_target_job_role request = Some role ∧ role ≠ ""
       ∧ files_resume request = Some file
       ∧ allowed_file (filename file) = Ok true
       ∧ extract_text_from_file decode pdf docx file = Ok (Some text)
       ∧ blank text = false
       ∧ analyse role text = Ok response).
Proof.
  unfold upload.
  destruct (session_user request) as [user|] eqn:Huser; [|intros [= <-]; by left].
  destruct (method request) eqn:Hmethod; [intros [= <-]; by left|].
  destruct (form_target_job_role request) as [[|c role]|] eqn:Hrole;
    [intros [= <-]; by left | | intros [= <-]; by left].
  destruct (files_resume request) as [file|] eqn:Hfile; [|intros [= <-]; by left].
  case_decide as Hname; [intros [= <-]; by left|].
  destruct (upload_file_cases decode pdf docx (String c role) file)
    as [(message & category & v & -> & Hv)
       | (text & Hallowed & Hextract & Hblank & ->)].
  - intros Hok. assert (response = flash_and message category v) as -> by congruence.
    by left.
  - intros Hanalyse. right. exists user, (String c role), file, text.
    by split_and!.
Qed.

(** X5: [upload] stores a report, and redirects to the charts, only for a
    logged-in POST with a role, an accepted file and an extracted text that
    is not blank; the response is then what [analyse] returns for that role
    and text. *)
Theorem upload_stores_only_an_analysis
    (decode : list Byte.byte → string)
    (pdf : list Byte.byte → option (list (option string)))
    (docx : list Byte.byte → option (list string))
    (request : Request) (response : Response) :
  upload decode pdf docx request = Ok response →
  (body response = redirect (url_for "charts") ↔ is_Some (stored response))
  ∧ (is_Some (stored response) →
     ∃ user role file text,
       session_user request = Some user
       ∧ method request = POST
       ∧ form_target_job_role request = Some role ∧ role ≠ ""
       ∧ files_resume request = Some file
       ∧ allowed_file (filename file) = Ok true
       ∧ extract_text_from_file decode pdf docx file = Ok (Some text)
       ∧ blank text = false
       ∧ analyse role text = Ok response).
Proof.
  intros [[Hstored Hbody] | (user & role & file & text & Hcase)]%upload_cases.
  - rewrite Hstored. split; [|by intros [? [=]]].
    split; [done | by intros [? [=]]].
  - assert (response = analysis role text) as Hresponse.
    { apply (analyse_Ok role text). apply Hcase. }
    destruct (analysis_succeeds role text) as [Hbody Hstored].
    rewrite <- Hresponse in Hbody, Hstored.
    split; [by split|]. intros _. by exists user, role, file, text.
Qed.

Lemma upload_stores_only_an_analysis_witness :
  ∃ response,
    upload (λ _, "teamwork") pdf_unreadable docx_unreadable
      {| session_user := Some "testuser"; method := POST;
         form_target_job_role := Some "Astronaut";
         files_resume := Some {| filename := "cv.txt"; stream := [] |} |}
    = Ok response
    ∧ body response = redirect (url_for "charts")
    ∧ is_Some (stored response)
    ∧ analyse "Astronaut" "teamwork" = Ok response.
Proof.
  set (request := {| session_user := Some "testuser"; method := POST;
                     form_target_job_role := Some "Astronaut";
                     files_resume := Some {| filename := "cv.txt"; stream := [] |} |}).
  assert (upload (λ _, "teamwork") pdf_unreadable docx_unreadable request
          = Ok (analysis "Astronaut" "teamwork")) as Hupload.
  { unfold upload, request.
    cbn [session_user method form_target_job_role files_resume filename].
    rewrite decide_False by done.
    rewrite (upload_file_by_text _ _ _ _ _ (Some "teamwork"));
      [|reflexivity|reflexivity].
    rewrite decide_False by done. change (blank "teamwork") with false.
    cbv beta iota. apply analyse_within. apply Z.leb_le. vm_compute. reflexivity. }
  destruct (upload_stores_only_an_analysis _ _ _ _ _ Hupload) as [Hcharts Hcase].
  destruct (analysis_succeeds "Astronaut" "teamwork") as [Hbody Hstored].
  exists (analysis "Astronaut" "teamwork").
  split; [assumption|]. split; [assumption|]. split; [assumption|].
  destruct (Hcase Hstored)
    as (user & role & file & text & _ & _ & Hrole & _ & Hfile & _ & Hextract & _ & Hanalyse).
  unfold request in Hrole, Hfile. cbn [form_target_job_role files_resume] in Hrole, Hfile.
  assert (role = "Astronaut") as -> by congruence.
  assert (file = {| filename := "cv.txt"; stream := [] |}) as -> by congruence.
  assert (text = "teamwork") as ->.
  { cbv in Hextract. congruence. }
  assumption.
Defined.

(** ** More on skill extraction and the score *)

(** X6: the skills that [extract_skills_nlp] returns are without repetition,
    and a skill is among them exactly when it is the display form of a
    vocabulary skill that occurs in the lowered text. *)
Theorem extracted_skills_characterised
    (resume_text : string) (extracted : list string) :
  extract_skills_nlp resume_text = Ok extracted →
  NoDup extracted
  ∧ ∀ shown : string,
      shown ∈ extracted
      ↔ Str.lower shown ∈ ALL_POSSIBLE_SKILLS_LOWER
        ∧ display (Str.lower shown) = shown
        ∧ Str.substring_of (Str.lower shown) (Str.lower resume_text).
Proof.
  intros [_ ->]%extract_skills_nlp_Ok.
  split; [unfold found, skills_in; apply NoDup_elements|]. intros shown.
  rewrite found_spec, <- contains_spec. split.
  - intros (skill & Hskill & Hin & ->).
    rewrite (lower_display_vocabulary _ Hskill). by split_and!.
  - intros (Hskill & Hshown & Hin). exists (Str.lower shown).
    split; [assumption | split; [assumption | by symmetry]].
Qed.

Lemma extracted_skills_characterised_witness :
  ∃ extracted,
    extract_skills_nlp "Git and SQL" = Ok extracted
    ∧ NoDup extracted
    ∧ "Sql" ∈ extracted.
Proof.
  assert (extract_skills_nlp "Git and SQL" = Ok (found "Git and SQL")) as Hextracted.
  { apply extract_skills_nlp_within. apply Z.leb_le. vm_compute. reflexivity. }
  destruct (extracted_skills_characterised _ _ Hextracted) as [Hnodup Hspec].
  exists (found "Git and SQL"). split; [assumption|]. split; [assumption|].
  apply (proj2 (Hspec "Sql")). split; [|split].
  - apply in_vocabulary. vm_compute. reflexivity.
  - vm_compute. reflexivity.
  - by exists "git and ", "".
Defined.

(** X7: when a vocabulary skill is extracted, so is every vocabulary skill
    that is a substring of it; JavaScript brings Java, and every skill with
    an r brings R. *)
Theorem subskills_are_extracted
    (resume_text : string) (extracted : list string) (skill part : string) :
  extract_skills_nlp resume_text = Ok extracted →
  skill ∈ ALL_POSSIBLE_SKILLS_LOWER →
  part ∈ ALL_POSSIBLE_SKILLS_LOWER →
  Str.substring_of part skill →
  display skill ∈ extracted →
  display part ∈ extracted.
Proof.
  intros [_ ->]%extract_skills_nlp_Ok Hskill Hpart Hsub Hshown.
  apply (proj1 (found_spec _ _)) in Hshown
    as (skill' & Hskill' & Hin & Hdisplay).
  assert (skill' = skill) as ->.
  { transitivity (Str.lower (display skill')).
    - symmetry. apply lower_display_vocabulary. assumption.
    - rewrite <- Hdisplay. apply lower_display_vocabulary. assumption. }
  apply (proj2 (found_spec _ _)). exists part.
  split; [assumption|]. split; [|reflexivity].
  apply contains_spec. apply contains_spec in Hin.
  by eapply substring_of_trans.
Qed.

Lemma subskills_are_extracted_witness :
  ∃ extracted,
    extract_skills_nlp "Senior JavaScript developer" = Ok extracted
    ∧ "Java" ∈ extracted.
Proof.
  exists (found "Senior JavaScript developer").
  assert (extract_skills_nlp "Senior JavaScript developer"
          = Ok (found "Senior JavaScript developer")) as Hextracted.
  { apply extract_skills_nlp_within. apply Z.leb_le. vm_compute. reflexivity. }
  split; [assumption|].
  apply (subskills_are_extracted "Senior JavaScript developer" _ "javascript" "java"
           Hextracted).
  - apply in_vocabulary. vm_compute. reflexivity.
  - apply in_vocabulary. vm_compute. reflexivity.
  - by exists "", "script".
  - apply (proj2 (found_spec _ _)). exists "javascript".
    split; [apply in_vocabulary; vm_compute; reflexivity|].
    split; vm_compute; reflexivity.
Defined.











(** ** Case of the file name *)

Lemma lower_char_facts (c : ascii) :
  Str.lower_char (Str.lower_char c) = Str.lower_char c
  ∧ (if ascii_dec (Str.lower_char c) "." then true else false)
    = (if ascii_dec c "." then true else false).
Proof.
  destruct c as [[] [] [] [] [] [] [] []]; vm_compute; split; reflexivity.
Qed.

Lemma lower_idempotent (s : string) : Str.lower (Str.lower s) = Str.lower s.
Proof.
  induction s as [|c s IH]; [done|]. cbn [Str.lower].
  by rewrite (proj1 (lower_char_facts c)), IH.
Qed.

Lemma has_dot_lower (s : string) :
  Str.has_char "." (Str.lower s) = Str.has_char "." s.
Proof.
  induction s as [|c s IH]; [done|]. cbn [Str.lower Str.has_char].
  pose proof (proj2 (lower_char_facts c)) as Hdot.
  destruct (ascii_dec (Str.lower_char c) "."), (ascii_dec c "."); try done.
Qed.

Lemma rsplit_dot_lower (s : string) :
  Str.rsplit_dot (Str.lower s) = Str.lower <$> Str.rsplit_dot s.
Proof.
  induction s as [|c s IH]; [done|]. cbn [Str.lower Str.rsplit_dot].
  rewrite IH. pose proof (proj2 (lower_char_facts c)) as Hdot.
  destruct (Str.rsplit_dot s) as [|before [|after [|more rest]]]; cbn;
    destruct (ascii_dec (Str.lower_char c) "."), (ascii_dec c "."); done.
Qed.

(** X10: the extension check does not see the case of the file name: two
    names that are equal once lowered are both accepted or both rejected. *)
Theorem allowed_file_ignores_case (name name' : string) :
  Str.lower name = Str.lower name' →
  allowed_file name = allowed_file name'.
Proof.
  assert (∀ n, allowed_file (Str.lower n) = allowed_file n) as Hlower.
  { intros n. unfold allowed_file. rewrite has_dot_lower, rsplit_dot_lower.
    destruct (Str.has_char "." n); [|reflexivity].
    unfold getitem. rewrite list_lookup_fmap.
    destruct (Str.rsplit_dot n !! 1) as [suffix|]; [|reflexivity].
    cbn. by rewrite lower_idempotent. }
  intros Hsame. by rewrite <- (Hlower name), <- (Hlower name'), Hsame.
Qed.

Lemma allowed_file_ignores_case_witness :
  allowed_file "Resume.Final.PDF" = allowed_file "resume.final.pdf".
Proof. by apply (allowed_file_ignores_case "Resume.Final.PDF" "resume.final.pdf"). Defined.

(** ** The recommendation text *)

Lemma substring_of_app_l (x a b : string) :
  Str.substring_of x a → Str.substring_of x (a ++ b).
Proof.
  intros (pre & post & ->). exists pre, (post ++ b). by rewrite !str_app_assoc.
Qed.

Lemma substring_of_app_r (x a b : string) :
  Str.substring_of x b → Str.substring_of x (a ++ b).
Proof.
  intros (pre & post & ->). exists (a ++ pre), post. by rewrite !str_app_assoc.
Qed.

(** The lines of the second section, one for each missing skill. *)
Lemma suggestion_lines_cons (skill : string) (missing : list string) :
  foldl (λ text skill, text ++ suggestion_for skill ++ LF) "" (skill :: missing)
  = (suggestion_for skill ++ LF)
    ++ foldl (λ text skill, text ++ suggestion_for skill ++ LF) "" missing.
Proof.
  cbn [foldl].
  rewrite (foldl_append (λ skill, suggestion_for skill ++ LF) missing
             ("" ++ suggestion_for skill ++ LF)).
  reflexivity.
Qed.

Lemma suggestion_starts_with_skill (skill : string) :
  ∃ advice, suggestion_for skill = ("* **" ++ skill ++ ":** ") ++ advice.
Proof. unfold suggestion_for. cbv zeta. repeat case_match; by eexists. Qed.

Lemma suggestion_in_lines (skill : string) (missing : list string) :
  skill ∈ missing →
  Str.substring_of ("* **" ++ skill ++ ":** ")
    (foldl (λ text skill, text ++ suggestion_for skill ++ LF) "" missing).
Proof.
  induction missing as [|first missing IH]; [by intros ?%elem_of_nil|].
  rewrite suggestion_lines_cons.
  intros [-> | Hskill]%elem_of_cons.
  - apply substring_of_app_l, substring_of_app_l.
    destruct (suggestion_starts_with_skill first) as [advice ->].
    apply substring_of_app_l, substring_of_refl.
  - by apply substring_of_app_r, IH.
Qed.

(** X11: the recommendation has a bullet for every missing skill, and the
    line of congratulation when no target skill is missing. *)
Theorem recommendation_lists_every_missing_skill
    (extracted target : list string) (selected_job_role : string) :
  (∀ skill, skill ∈ missing_skills extracted target →
            Str.substring_of ("* **" ++ skill ++ ":** ")
              (generate_recommendation_non_ai extracted target selected_job_role))
  ∧ (missing_skills extracted target = [] →
     Str.substring_of GREAT_JOB
       (generate_recommendation_non_ai extracted target selected_job_role)).
Proof.
  unfold generate_recommendation_non_ai. cbv zeta.
  destruct (missing_skills extracted target) as [|first missing] eqn:Hmissing.
  - split; [by intros skill ?%elem_of_nil|]. intros _.
    do 7 apply substring_of_app_l. apply substring_of_app_r.
    apply substring_of_app_l, substring_of_refl.
  - split; [|done]. intros skill Hskill.
    do 7 apply substring_of_app_l.
    rewrite (foldl_append (λ skill, suggestion_for skill ++ LF)).
    by apply substring_of_app_r, suggestion_in_lines.
Qed.

Lemma recommendation_lists_every_missing_skill_witness :
  Str.substring_of ("* **" ++ "Teamwork" ++ ":** ")
    (generate_recommendation_non_ai ["Sql"; "Communication"] DEFAULT_SKILLS "Astronaut").
Proof.
  apply (proj1 (recommendation_lists_every_missing_skill
                  ["Sql"; "Communication"] DEFAULT_SKILLS "Astronaut")).
  vm_compute. apply elem_of_cons. right. apply elem_of_cons. by left.
Defined.

Lemma missing_skills_reordered (extracted reordered target : list string) :
  reordered ≡ₚ extracted →
  missing_skills reordered target = missing_skills extracted target.
Proof.
  intros Hperm. unfold missing_skills. apply list_filter_iff. intros skill.
  by rewrite Hperm.
Qed.

(** X12: the recommendation depends on the order of the extracted skills
    only through the first three, which the generic branch names; in the
    well-aligned branch it does not depend on the order at all. *)
Theorem recommendation_depends_on_first_three
    (extracted reordered target : list string) (selected_job_role : string) :
  reordered ≡ₚ extracted →
  well_aligned extracted (missing_skills extracted target) = true
  ∨ firstn 3 reordered = firstn 3 extracted →
  generate_recommendation_non_ai reordered target selected_job_role
  = generate_recommendation_non_ai extracted target selected_job_role.
Proof.
  intros Hperm Hcases. unfold generate_recommendation_non_ai. cbv zeta.
  rewrite (missing_skills_reordered _ _ _ Hperm).
  assert (well_aligned reordered (missing_skills extracted target)
          = well_aligned extracted (missing_skills extracted target)) as ->.
  { unfold well_aligned. by rewrite Hperm. }
  destruct (well_aligned extracted (missing_skills extracted target));
    [reflexivity|].
  destruct Hcases as [[=] | Hfirst]. rewrite Hfirst.
  destruct extracted as [|x extracted].
  - apply Permutation_nil_r in Hperm as ->. reflexivity.
  - destruct reordered as [|y reordered]; [|reflexivity].
    symmetry in Hperm. by apply Permutation_nil_r in Hperm.
Qed.

Lemma recommendation_depends_on_first_three_witness :
  generate_recommendation_non_ai ["Sql"; "Python"; "Docker"; "R"; "Java"]
                                 DEFAULT_SKILLS "Astronaut"
  = generate_recommendation_non_ai ["Sql"; "Python"; "Docker"; "Java"; "R"]
                                   DEFAULT_SKILLS "Astronaut".
Proof.
  apply (recommendation_depends_on_first_three
           ["Sql"; "Python"; "Docker"; "Java"; "R"]
           ["Sql"; "Python"; "Docker"; "R"; "Java"] DEFAULT_SKILLS "Astronaut").
  - do 3 apply perm_skip. apply perm_swap.
  - right. reflexivity.
Defined.

(** ** Users and sessions *)

(** X13: after the registration of a free user name, a login with that name
    succeeds with the registered password and with no other, and the
    passwords of the other users are as before. *)
Theorem register_then_login
    (users : gmap string string) (session : Session.t) (username password : string) :
  users !! username = None →
  ∃ users' page,
    register users POST {| form_username := Some username;
                           form_password := Some password |} = Ok (users', page)
    ∧ page_body page = redirect (url_for "login")
    ∧ (∀ other, other ≠ username → users' !! other = users !! other)
    ∧ ∀ attempt,
        ∃ session' page',
          login users' session POST {| form_username := Some username;
                                       form_password := Some attempt |}
          = Ok (session', page')
          ∧ (attempt = password →
             Session.user session' = Some username
             ∧ page_body page' = redirect (url_for "dashboard"))
          ∧ (attempt ≠ password → session' = session).
Proof.
  intros Hfree. unfold register. cbn. rewrite decide_False.
  2: { rewrite Hfree. by intros [? [=]]. }
  eexists _, _. split; [reflexivity|]. split; [reflexivity|]. split.
  - intros other Hother. by rewrite lookup_insert_ne.
  - intros attempt. unfold login. cbn. rewrite lookup_insert_eq.
    destruct (decide (Some password = Some attempt)) as [[= ->]|Hwrong].
    + eexists _, _. split; [reflexivity|]. by split.
    + eexists _, _. split; [reflexivity|]. split; [|done].
      intros ->. by destruct Hwrong.
Qed.

Lemma register_then_login_witness :
  ∃ users' page,
    register INITIAL_USERS POST {| form_username := Some "ada";
                                   form_password := Some "lovelace" |}
    = Ok (users', page)
    ∧ page_body page = redirect (url_for "login")
    ∧ (∀ other, other ≠ "ada" → users' !! other = INITIAL_USERS !! other)
    ∧ ∀ attempt,
        ∃ session' page',
          login users' Session.empty POST {| form_username := Some "ada";
                                             form_password := Some attempt |}
          = Ok (session', page')
          ∧ (attempt = "lovelace" →
             Session.user session' = Some "ada"
             ∧ page_body page' = redirect (url_for "dashboard"))
          ∧ (attempt ≠ "lovelace" → session' = Session.empty).
Proof.
  apply (register_then_login INITIAL_USERS Session.empty "ada" "lovelace").
  vm_compute. reflexivity.
Defined.

Lemma register_grows (users users' : gmap string string)
    (method : http_method) (form : Credentials) (page : Page) :
  register users method form = Ok (users', page) → users ⊆ users'.
Proof.
  unfold register. destruct method; [by intros [= <- _]|].
  destruct (form_username form) as [username|]; [|done].
  destruct (form_password form) as [password|]; [|done]. cbn.
  case_decide as Htaken; intros [= <- _]; [done|].
  apply insert_subseteq. destruct (users !! username) eqn:Hu; [|done].
  destruct Htaken. by eexists.
Qed.

(** X14: a registration never changes the password of a user that exists,
    so a login that succeeded before it succeeds after it. *)
Theorem register_keeps_existing_users
    (users users' : gmap string string) (method : http_method)
    (form : Credentials) (page : Page) :
  register users method form = Ok (users', page) →
  (∀ username password,
     users !! username = Some password → users' !! username = Some password)
  ∧ ∀ session login_method credentials session' page',
      login users session login_method credentials = Ok (session', page') →
      page_body page' = redirect (url_for "dashboard") →
      login users' session login_method credentials = Ok (session', page').
Proof.
  intros Hgrows%register_grows. split.
  - intros username password Hu. by eapply lookup_weaken.
  - intros session m credentials session' page'. unfold login.
    destruct m; [done|].
    destruct (form_username credentials) as [username|]; [|done].
    destruct (form_password credentials) as [password|]; [|done]. cbn.
    case_decide as Hu; intros [= <- <-]; [intros _|done].
    rewrite decide_True; [done|]. by eapply lookup_weaken.
Qed.

Lemma register_keeps_existing_users_witness :
  (<["ada" := "lovelace"]> INITIAL_USERS) !! "testuser" = Some "password123".
Proof.
  assert (register INITIAL_USERS POST
            {| form_username := Some "ada"; form_password := Some "lovelace" |}
          = Ok (<["ada" := "lovelace"]> INITIAL_USERS,
                {| page_flashed := [("Registration successful! Please log in.", "success")];
                   page_body := redirect (url_for "login") |})) as Hregister.
  { unfold register. cbn. rewrite decide_False; [reflexivity|].
    assert (INITIAL_USERS !! "ada" = None) as -> by (vm_compute; reflexivity).
    by intros [? [=]]. }
  apply (proj1 (register_keeps_existing_users _ _ _ _ _ Hregister)).
  vm_compute. reflexivity.
Defined.

Lemma store_report_set_user (report : MatchReport) (username : string) (s : Session.t) :
  s = store_report report s →
  Session.set_user username s = store_report report (Session.set_user username s).
Proof. destruct s. unfold store_report, Session.set_user. cbn. by intros [= -> -> -> -> ->]. Qed.

Lemma store_report_pop_user (report : MatchReport) (s : Session.t) :
  s = store_report report s →
  Session.pop_user s = store_report report (Session.pop_user s).
Proof. destruct s. unfold store_report, Session.pop_user. cbn. by intros [= -> -> -> -> ->]. Qed.

(** X15: logging out removes the user from the session and nothing else:
    the dashboard is closed, but whoever logs in next in the same session is
    shown the charts and the recommendation of the analysis stored before. *)
Theorem analysis_survives_logout
    (dumps_strings : list string → string) (dumps_ints : list Z → string)
    (users : gmap string string) (session : Session.t)
    (username password : string) :
  users !! username = Some password →
  page_body (dashboard (logout session).1) = redirect (url_for "login")
  ∧ ∃ session' page,
      login users (logout session).1 POST
            {| form_username := Some username; form_password := Some password |}
      = Ok (session', page)
      ∧ Session.user session' = Some username
      ∧ (is_Some (Session.user session) →
         charts dumps_strings dumps_ints session'
         = charts dumps_strings dumps_ints session
         ∧ career_recommendation session' = career_recommendation session).
Proof.
  intros Hcredentials. split; [reflexivity|].
  unfold login. cbn. rewrite decide_True by done.
  eexists _, _. split; [reflexivity|]. split; [reflexivity|].
  intros [user Huser]. destruct session. cbn in Huser. subst.
  split; reflexivity.
Qed.

Lemma analysis_survives_logout_witness :
  ∃ session' page,
    login INITIAL_USERS
          (logout (store_report
                     {| chart_labels := ["SQL"]; chart_values := [1%Z];
                        extracted_skills := ["Sql"]; target_job_skills := ["SQL"];
                        resume_score := 100%float; selected_job_role := "Data Scientist" |}
                     (Session.set_user "testuser" Session.empty))).1
          POST {| form_username := Some "john.doe"; form_password := Some "securepass" |}
    = Ok (session', page)
    ∧ Session.user session' = Some "john.doe"
    ∧ Session.resume_score session' = Some 100%float.
Proof.
  destruct (analysis_survives_logout (λ _, "") (λ _, "") INITIAL_USERS
              (store_report
                 {| chart_labels := ["SQL"]; chart_values := [1%Z];
                    extracted_skills := ["Sql"]; target_job_skills := ["SQL"];
                    resume_score := 100%float; selected_job_role := "Data Scientist" |}
                 (Session.set_user "testuser" Session.empty))
              "john.doe" "securepass" ltac:(vm_compute; reflexivity))
    as (_ & session' & page & Hlogin & Huser & _).
  exists session', page. split; [assumption|]. split; [assumption|].
  vm_compute in Hlogin. by injection Hlogin as <- _.
Defined.

(** ** Charts *)




(** The session that [upload] leaves behind. *)
Lemma upload_in_cases
    (decode : list Byte.byte → string)
    (pdf : list Byte.byte → option (list (option string)))
    (docx : list Byte.byte → option (list string))
    (session session' : Session.t) (method : http_method)
    (role : option string) (file : option FileStorage) (response : Response) :
  upload_in decode pdf docx session method role file = Ok (session', response) →
  (session' = session ∧ stored response = None)
  ∨ (∃ user target_job_role text report,
       Session.user session = Some user
       ∧ role = Some target_job_role ∧ target_job_role ≠ ""
       ∧ blank text = false
       ∧ analyse target_job_role text = Ok response
       ∧ stored response = Some report
       ∧ session' = store_report report session).
Proof.
  unfold upload_in. intros (answer & Hupload & [= <- ->])%bind_Ok.
  apply upload_cases in Hupload
    as [[Hstored _]
       | (user & r & f & text & Huser & _ & Hrole & Hr & _ & _ & _ & Hblank & Hanalyse)].
  - left. by rewrite Hstored.
  - right. cbn in Huser, Hrole.
    pose proof (proj2 (analyse_Ok _ _ _ Hanalyse)) as Hanswer.
    destruct (analysis_succeeds r text) as [_ [report Hreport]].
    rewrite <- Hanswer in Hreport.
    exists user, r, text, report. rewrite Hreport. by split_and!.
Qed.

(** X17: what a successful [upload] writes to the session is what [charts]
    and [career_recommendation] read back: the labels, the indicators, the
    score, the role, and the recommendation for the skills of the report. *)
Theorem charts_show_the_stored_report
    (decode : list Byte.byte → string)
    (pdf : list Byte.byte → option (list (option string)))
    (docx : list Byte.byte → option (list string))
    (dumps_strings : list string → string) (dumps_ints : list Z → string)
    (session session' : Session.t) (method : http_method)
    (role : option string) (file : option FileStorage)
    (response : Response) (report : MatchReport) :
  upload_in decode pdf docx session method role file = Ok (session', response) →
  stored response = Some report →
  (∃ context,
     charts dumps_strings dumps_ints session'
     = ({| page_flashed := []; page_body := render_template "charts.html" |},
        Some context)
     ∧ ctx_chart_data context = (chart_labels report, chart_values report)
     ∧ ctx_chart_labels_json context = dumps_strings (chart_labels report)
     ∧ ctx_chart_values_json context = dumps_ints (chart_values report)
     ∧ ctx_background_colors_json context
       = dumps_strings (background_colors (chart_values report))
     ∧ ctx_resume_score context = resume_score report
     ∧ ctx_selected_job_role context = selected_job_role report
     ∧ ctx_extracted_skills context = extracted_skills report
     ∧ ctx_target_job_skills context = target_job_skills report)
  ∧ (career_recommendation session').2
    = Some (generate_recommendation_non_ai (extracted_skills report)
              (target_job_skills report) (selected_job_role report)).
Proof.
  intros [[_ Hnone] | (user & r & text & report' & Huser & _ & _ & _ & _ & Hreport & ->)]%upload_in_cases
    Hstored.
  - by rewrite Hnone in Hstored.
  - rewrite Hreport in Hstored. injection Hstored as ->.
    unfold charts, career_recommendation, store_report. cbn. rewrite Huser. cbn.
    split; [|reflexivity]. eexists. split; [reflexivity|]. by split_and!.
Qed.

Lemma charts_show_the_stored_report_witness :
  ∃ response report,
    analyse "Astronaut" "teamwork" = Ok response
    ∧ stored response = Some report
    ∧ (career_recommendation
         (store_report report (Session.set_user "testuser" Session.empty))).2
      = Some (generate_recommendation_non_ai (extracted_skills report)
                (target_job_skills report) (selected_job_role report)).
Proof.
  destruct (analysis_succeeds "Astronaut" "teamwork") as [_ [report Hreport]].
  assert (analyse "Astronaut" "teamwork" = Ok (analysis "Astronaut" "teamwork"))
    as Hanalyse.
  { apply analyse_within. apply Z.leb_le. vm_compute. reflexivity. }
  exists (analysis "Astronaut" "teamwork"), report.
  split; [assumption|]. split; [assumption|].
  apply (charts_show_the_stored_report
           (λ _, "teamwork") pdf_unreadable docx_unreadable (λ _, "") (λ _, "")
           (Session.set_user "testuser" Session.empty)
           (store_report report (Session.set_user "testuser" Session.empty))
           POST (Some "Astronaut")
           (Some {| filename := "cv.txt"; stream := [] |})
           (analysis "Astronaut" "teamwork") report); [|assumption].
  unfold upload_in, upload.
  cbn [Session.user Session.set_user Session.empty session_user method
       form_target_job_role files_resume filename].
  rewrite decide_False by done.
  rewrite (upload_file_by_text _ _ _ _ _ (Some "teamwork"));
    [|reflexivity|reflexivity].
  rewrite decide_False by done. change (blank "teamwork") with false.
  cbv beta iota. rewrite Hanalyse.
  cbn [mbind outcome_bind mret outcome_ret]. rewrite Hreport. reflexivity.
Defined.

(** ** The application as a whole *)

Lemma step_consistent
    (decode : list Byte.byte → string)
    (pdf : list Byte.byte → option (list (option string)))
    (docx : list Byte.byte → option (list string))
    (state : gmap string string * Session.t) (c : call) :
  consistent state → consistent (step decode pdf docx state c).
Proof.
  destruct state as [users session]. intros (Hinitial & Huser & Hreport).
  destruct c as [method form|method form| |method role file]; cbn [step].
  - destruct (login users session method form) as [[session' page]|e] eqn:Hlogin;
      [|done].
    unfold login in Hlogin. destruct method; [by injection Hlogin as <- _|].
    destruct (form_username form) as [username|]; [|done].
    destruct (form_password form) as [password|]; [|done]. cbn in Hlogin.
    case_decide as Hcredentials; injection Hlogin as <- _; [|done].
    split; [done|]. split.
    + cbn. intros u [= <-]. by eexists.
    + destruct Hreport as [Hnone | (r & text & report & ? & ? & ? & Hheld)].
      * left. by destruct session.
      * right. exists r, text, report. split_and!; [done..|].
        by apply store_report_set_user.
  - destruct (register users method form) as [[users' page]|e] eqn:Hregister;
      [|done].
    apply register_grows in Hregister. split; [by etrans|]. split; [|done].
    cbn. intros u [p Hu]%Huser. exists p. by eapply lookup_weaken.
  - split; [done|]. split; [done|].
    destruct Hreport as [Hnone | (r & text & report & ? & ? & ? & Hheld)].
    + left. by destruct session.
    + right. exists r, text, report. split_and!; [done..|].
      by apply store_report_pop_user.
  - destruct (upload_in decode pdf docx session method role file)
      as [[session' response]|e] eqn:Hupload; [|done].
    apply upload_in_cases in Hupload
      as [[-> _] | (user & r & text & report & Hu & _ & Hr & Hblank & Hanalyse & Hstored & ->)];
      [done|].
    split; [done|]. split; [done|].
    right. exists r, text, report. split_and!; [done| done | | by destruct session].
    exists response. by split.
Qed.

(** X18: after any sequence of logins, registrations, logouts and uploads
    the two users of the start still have their passwords, the user of the
    session is a registered one, and the session holds either no analysis or
    the complete analysis of some role and of some text that is not blank. *)
Theorem reachable_states_are_consistent
    (decode : list Byte.byte → string)
    (pdf : list Byte.byte → option (list (option string)))
    (docx : list Byte.byte → option (list string)) (calls : list call) :
  consistent (run decode pdf docx calls).
Proof.
  unfold run.
  assert (consistent (INITIAL_USERS, Session.empty)) as Hstart.
  { split; [done|]. split; [done|]. by left. }
  revert Hstart. generalize (INITIAL_USERS, Session.empty).
  induction calls as [|c calls IH]; intros state Hstate; [done|].
  cbn [foldl]. by apply IH, step_consistent.
Qed.

(** ** More on the chatbot *)

(** X19: [chatbot] asks the service nothing when the user is not logged in,
    the request is a GET, the query is absent or empty, or no API key is set;
    otherwise its answer depends on the service only through the reply to the
    one prompt made of the fixed prefix and the query. *)
Theorem chatbot_asks_for_one_prompt
    (key : string) (exn_str : exn → string)
    (post post' : string → json → outcome json) (request : ChatRequest) :
  (chat_session_user request = None ∨ chat_method request = GET
   ∨ form_query request = None ∨ form_query request = Some "" ∨ key = "" →
   chatbot key post exn_str request = chatbot key post' exn_str request)
  ∧ (∀ query,
       form_query request = Some query →
       post (api_url key) (chat_payload (PROMPT_PREFIX ++ query))
       = post' (api_url key) (chat_payload (PROMPT_PREFIX ++ query)) →
       chatbot key post exn_str request = chatbot key post' exn_str request).
Proof.
  unfold chatbot.
  destruct (chat_session_user request) as [user|]; [|by split].
  destruct (chat_method request); [by split|].
  destruct (form_query request) as [query|]; [|by split]. cbn.
  destruct (Str.truthy query) eqn:Hquery; [|by split].
  rewrite !call_gemini_api_for_chatbot_cases. cbn. split.
  - intros [[=] | [[=] | [[=] | [[= ->] | ->]]]]; [done|]. reflexivity.
  - intros ? [= <-] Hsame. by rewrite Hsame.
Qed.

Lemma chatbot_asks_for_one_prompt_witness :
  chatbot "" (answer_with "Hello") exn_message
          {| chat_session_user := Some "testuser"; chat_method := POST;
             form_query := Some "How do I become a data scientist?" |}
  = chatbot "" blocked_for_safety exn_message
            {| chat_session_user := Some "testuser"; chat_method := POST;
               form_query := Some "How do I become a data scientist?" |}.
Proof.
  apply (proj1 (chatbot_asks_for_one_prompt "" exn_message (answer_with "Hello")
                  blocked_for_safety
                  {| chat_session_user := Some "testuser"; chat_method := POST;
                     form_query := Some "How do I become a data scientist?" |})).
  by do 4 right.
Defined.

(** ** The score and the missing skills *)





